(** * tinybirdclient: retry executor, query encoder and endpoint operations

    A shallow embedding of the Go client library:
    - [Go]: the pieces of the Go runtime and standard library the client
      relies on (error values, [fmt], [strconv], [net/url]);
    - [Httpclient]: package [internal/httpclient], the retry executor
      ([executeWithRetry], [executeRawWithRetry], [handleResponse]) and the
      reflective query encoder ([StructToQueryParams]);
    - [Tinybird]: package [tinybird], the endpoint operations [SendEvents]
      and [Analyze].
    The properties follow the definitions. *)

From Stdlib Require Import ZArith List String Ascii Bool Lia DecimalString.
From Stdlib Require Import Permutation Sorted.
From Stdlib.Strings Require Import Byte.
Import ListNotations.

Local Open Scope string_scope.
Local Open Scope Z_scope.

(* ================================================================== *)
(** * Go runtime and standard library *)

Module Go.

(** [[]byte]; the nil slice and the empty slice both have length 0 and are
    both [[]]. *)
Definition bytes := list byte.

(** [len(b)] as an [int]. *)
Definition len {A} (l : list A) : Z := Z.of_nat (List.length l).

(** Error values.  [ErrorString] is a leaf error carrying its message
    ([errors.New], [fmt.Errorf] without [%w], or an error handed back by a
    library); [Wrap prefix cause] is [fmt.Errorf(prefix + ": %w", cause)]
    for a non-nil [cause], and [WrapNil prefix] the same call on the nil
    error. *)
Inductive error : Type :=
| ErrorString (msg : string)
| Wrap (prefix : string) (cause : error)
| WrapNil (prefix : string).

(** [fmt.Errorf(prefix + ": %w", cause)], where [None] is the nil error. *)
Definition Wrapf (prefix : string) (cause : option error) : error :=
  match cause with
  | Some e => Wrap prefix e
  | None => WrapNil prefix
  end.

(** [err.Error()]. *)
Fixpoint Error (e : error) : string :=
  match e with
  | ErrorString msg => msg
  | Wrap prefix cause => prefix ++ ": " ++ Error cause
  | WrapNil prefix => prefix ++ ": %!w(<nil>)"
  end.

(** [strconv.FormatInt(i, 10)] and the [%d] verb. *)
Definition FormatInt (i : Z) : string := NilEmpty.string_of_int (Z.to_int i).

(** [strconv.FormatUint(u, 10)]. *)
Definition FormatUint (u : Z) : string := NilEmpty.string_of_uint (N.to_uint (Z.to_N u)).

(** [strconv.FormatBool]. *)
Definition FormatBool (b : bool) : string := if b then "true" else "false".

(** ** 64-bit integers: [time.Duration] is an [int64] count of nanoseconds *)

Definition wrap64 (z : Z) : Z := (z + 2 ^ 63) mod 2 ^ 64 - 2 ^ 63.

(** [d * time.Duration(attempt)]: Go's multiplication on [int64]. *)
Definition Duration_mul (d attempt : Z) : Z := wrap64 (d * attempt).

(** ** [net/url] *)

Definition in_range (lo hi c : ascii) : bool :=
  (nat_of_ascii lo <=? nat_of_ascii c)%nat && (nat_of_ascii c <=? nat_of_ascii hi)%nat.

(** [shouldEscape(c, encodeQueryComponent)]: only the unreserved characters
    (letters, digits, [-], [_], [.], [~]) are kept. *)
Definition shouldEscape (c : ascii) : bool :=
  negb (in_range "a" "z" c || in_range "A" "Z" c || in_range "0" "9" c
        || Ascii.eqb c "-" || Ascii.eqb c "_" || Ascii.eqb c "." || Ascii.eqb c "~").

Definition upperhex (n : nat) : ascii :=
  match String.get n "0123456789ABCDEF" with
  | Some c => c
  | None => "0"%char
  end.

(** [url.QueryEscape]. *)
Fixpoint QueryEscape (s : string) : string :=
  match s with
  | EmptyString => EmptyString
  | String c rest =>
      if shouldEscape c then
        if Ascii.eqb c " " then String "+" (QueryEscape rest)
        else String "%" (String (upperhex (nat_of_ascii c / 16))
                           (String (upperhex (nat_of_ascii c mod 16)) (QueryEscape rest)))
      else String c (QueryEscape rest)
  end.

(** [ishex] and [unhex] of net/url. *)
Definition unhex (c : ascii) : option nat :=
  if in_range "0" "9" c then Some (nat_of_ascii c - 48)%nat
  else if in_range "a" "f" c then Some (nat_of_ascii c - 97 + 10)%nat
  else if in_range "A" "F" c then Some (nat_of_ascii c - 65 + 10)%nat
  else None.

(** [url.QueryUnescape], the decoding a server applies to a query
    component: [%XX] is the byte with that code, [+] is a space, a [%]
    without two hexadecimal digits behind it is an error ([None]). *)
Fixpoint QueryUnescape (s : string) : option string :=
  match s with
  | EmptyString => Some EmptyString
  | String c rest =>
      if Ascii.eqb c "%" then
        match rest with
        | String a (String b rest') =>
            match unhex a, unhex b with
            | Some x, Some y =>
                option_map (String (ascii_of_nat (16 * x + y))) (QueryUnescape rest')
            | _, _ => None
            end
        | _ => None
        end
      else if Ascii.eqb c "+" then option_map (String " ") (QueryUnescape rest)
      else option_map (String c) (QueryUnescape rest)
  end.

(** [url.Values], a [map[string][]string].  Kept as an association list
    with one entry per key. *)
Definition Values := list (string * list string).

(** [v.Add(key, value)]: [v[key] = append(v[key], value)]. *)
Fixpoint Values_Add (v : Values) (key value : string) : Values :=
  match v with
  | [] => [(key, [value])]
  | (k, vs) :: rest =>
      if String.eqb k key then (k, (vs ++ [value])%list) :: rest
      else (k, vs) :: Values_Add rest key value
  end.

Fixpoint insert_sorted (e : string * list string) (v : Values) : Values :=
  match v with
  | [] => [e]
  | e' :: rest =>
      if String.leb (fst e) (fst e') then e :: e' :: rest
      else e' :: insert_sorted e rest
  end.

(** The entries in the order of [slices.Sorted(maps.Keys(v))]. *)
Definition sorted_entries (v : Values) : Values := fold_right insert_sorted [] v.

Fixpoint join_amp (parts : list string) : string :=
  match parts with
  | [] => ""
  | [p] => p
  | p :: rest => p ++ "&" ++ join_amp rest
  end.

(** [v.Encode()]: [key=value] pairs, both escaped, sorted by key, joined
    with [&]. *)
Definition Values_Encode (v : Values) : string :=
  join_amp
    (flat_map (fun e => map (fun val => QueryEscape (fst e) ++ "=" ++ QueryEscape val) (snd e))
       (sorted_entries v)).

(** ASCII lower-casing of one byte. *)
Definition lower (c : ascii) : ascii :=
  if in_range "A" "Z" c then ascii_of_nat (nat_of_ascii c + 32) else c.

(** Every byte of [s] is below [utf8.RuneSelf] (0x80). *)
Fixpoint isASCII (s : string) : bool :=
  match s with
  | EmptyString => true
  | String c rest => (nat_of_ascii c <? 128)%nat && isASCII rest
  end.

(** The byte loop [strings.ToLower] runs on a string of ASCII bytes: the
    letters [A] to [Z] are moved to lower case, every other byte is kept. *)
Fixpoint ToLowerASCII (s : string) : string :=
  match s with
  | EmptyString => EmptyString
  | String c rest => String (lower c) (ToLowerASCII rest)
  end.

(** [p] holds of every byte of [s]. *)
Fixpoint string_forall (p : ascii -> bool) (s : string) : bool :=
  match s with
  | EmptyString => true
  | String c rest => p c && string_forall p rest
  end.

(** The bytes a query component is made of once escaped: the unreserved
    characters, the percent sign of an escape and the plus sign that
    stands for a space. *)
Definition query_safe (c : ascii) : bool :=
  negb (shouldEscape c) || Ascii.eqb c "%" || Ascii.eqb c "+".

(** [strings.Split(s, ",")[0]]: the part of [s] before its first comma. *)
Fixpoint before_comma (s : string) : string :=
  match s with
  | EmptyString => EmptyString
  | String c rest => if Ascii.eqb c "," then EmptyString else String c (before_comma rest)
  end.

End Go.

(* ================================================================== *)
(** * Package [internal/httpclient] *)

Module Httpclient.
Import Go.

(** ** Types (types.go) *)

(** [Config]: [Timeout] and [RetryDelay] are [time.Duration] values,
    [MaxRetries] is an [int]. *)
Record Config : Type := {
  Timeout : Z;
  RetryDelay : Z;
  MaxRetries : Z;
  UserAgent : string;
  Token : string
}.

(** ** The [net/http] boundary *)

(** [http.Header], restricted to single-valued keys. *)
Definition Header := list (string * string).

(** [h.Set(key, value)]. *)
Fixpoint Header_Set (h : Header) (key value : string) : Header :=
  match h with
  | [] => [(key, value)]
  | (k, v) :: rest =>
      if String.eqb k key then (k, value) :: rest
      else (k, v) :: Header_Set rest key value
  end.

Fixpoint Header_Get (h : Header) (key : string) : string :=
  match h with
  | [] => ""
  | (k, v) :: rest => if String.eqb k key then v else Header_Get rest key
  end.

(** [*http.Request]: [Body] is [None] when the body reader is nil. *)
Record Request : Type := {
  Method : string;
  URL : string;
  Body : option bytes;
  Headers : Header
}.

Definition Request_Set (req : Request) (key value : string) : Request :=
  {| Method := Method req; URL := URL req; Body := Body req;
     Headers := Header_Set (Headers req) key value |}.

(** [*http.Response] as [handleResponse] sees it: the status code, the
    status text, and what [io.ReadAll(resp.Body)] gives. *)
Record Response : Type := {
  StatusCode : Z;
  Status : string;
  ReadAll : error + bytes
}.

Definition StatusNoContent : Z := 204.
Definition StatusTooManyRequests : Z := 429.

(** The network.  [request_error method url] is the verdict of
    [http.NewRequestWithContext] on the method and URL ([None]: the request
    is built); [Do k req] is the answer of [c.httpClient.Do] to the [k]-th
    call made on the client (counting from 0). *)
Class Transport : Type := {
  request_error : string -> string -> option error;
  Do : nat -> Request -> error + Response
}.

(** [http.NewRequestWithContext(ctx, method, url, body)]. *)
Definition NewRequestWithContext `{Transport} (method urlStr : string) (body : option bytes)
  : error + Request :=
  match request_error method urlStr with
  | Some err => inl err
  | None => inr {| Method := method; URL := urlStr; Body := body; Headers := [] |}
  end.

(** [json.Unmarshal(body, result)] for a non-nil [result] pointing to a
    value of type [T]: the value left in the target (which may have been
    partly written) and the error. *)
Class Decoder (T : Type) : Type := {
  json_Unmarshal : bytes -> T -> T * option error
}.

(** ** What a call leaves behind *)

(** Observable steps of a call, in the order they happen: [EvSleep d] is
    the call [time.Sleep(d)] (which suspends the caller for [d]
    nanoseconds, and not at all when [d <= 0]); [EvDo req] is the network
    call [c.httpClient.Do(req)]. *)
Inductive event : Type :=
| EvSleep (d : Z)
| EvDo (req : Request).

(** The outcome of a retrying call: the returned error ([None] is nil), the
    state of the caller's decode target ([None]: the caller passed a nil
    [result]), the events, and the number of [Do] calls made on the client
    so far. *)
Record Run (T : Type) : Type := {
  err : option error;
  target : option T;
  events : list event;
  calls : nat
}.
Arguments err {T} _.
Arguments target {T} _.
Arguments events {T} _.
Arguments calls {T} _.

Definition finish {T} (e : option error) (result : option T) (k : nat) : Run T :=
  {| err := e; target := result; events := []; calls := k |}.

(** [evs] happen, then the call goes on as [r]. *)
Definition prepend {T} (evs : list event) (r : Run T) : Run T :=
  {| err := err r; target := target r; events := (evs ++ events r)%list; calls := calls r |}.

Definition is_do (ev : event) : bool :=
  match ev with
  | EvDo _ => true
  | EvSleep _ => false
  end.

(** The number of attempts that reached the network. *)
Definition attempts (evs : list event) : nat := List.length (filter is_do evs).

(** [r] starts with the events [pre] and then goes on exactly as [r']. *)
Definition extends {T} (pre : list event) (r r' : Run T) : Prop :=
  events r = (pre ++ events r')%list
  /\ err r = err r' /\ target r = target r' /\ calls r = calls r'.

(** The two executors side by side: the structured one
    ([executeWithRetry]) and the raw one ([executeRawWithRetry]) with its
    content type and content encoding. *)
Inductive executor : Type :=
| Structured
| Raw (contentType contentEncoding : string).

Section Executor.
Context {T : Type} `{Transport} `{Decoder T}.

(** *** [handleResponse] *)
Definition handleResponse (resp : Response) (result : option T) : option error * option T :=
  match ReadAll resp with
  | inl err => (Some (Wrap "failed to read response body" err), result)
  | inr body =>
      if (200 <=? StatusCode resp) && (StatusCode resp <? 300) then
        match result with
        | Some t =>
            if negb (StatusCode resp =? StatusNoContent) && (0 <? len body) then
              match json_Unmarshal body t with
              | (t', Some err) =>
                  (Some (Wrap "failed to unmarshal response" err), Some t')
              | (t', None) => (None, Some t')
              end
            else (None, result)
        | None => (None, result)
        end
      else if 0 <? len body then
        (Some (ErrorString ("HTTP " ++ FormatInt (StatusCode resp) ++ ": " ++ Status resp
                            ++ " - " ++ string_of_list_byte body)), result)
      else
        (Some (ErrorString ("HTTP " ++ FormatInt (StatusCode resp) ++ ": " ++ Status resp)),
         result)
  end.

Variable c : Config.

(** [if attempt > 0 { time.Sleep(c.config.RetryDelay * time.Duration(attempt)) }] *)
Definition pause (attempt : Z) : list event :=
  if 0 <? attempt then [EvSleep (Duration_mul (RetryDelay c) attempt)] else [].

(** *** The retry loop

    The loops of [executeWithRetry] and [executeRawWithRetry] differ only
    in the headers they set on the fresh request; [setHeaders] is that
    part.  [fuel] is the number of iterations left, [attempt] the loop
    variable, [k] the number of [Do] calls made on the client so far. *)
Section Loop.
Variable setHeaders : Request -> Request.
Variables method urlStr : string.
Variable bodyBytes : bytes.

Fixpoint retryLoop (fuel : nat) (attempt : Z) (k : nat)
    (lastErr : option error) (result : option T) : Run T :=
  match fuel with
  | O => finish (Some (Wrapf "max retries exceeded" lastErr)) result k
  | S fuel' =>
      prepend (pause attempt)
        (let body := if 0 <? len bodyBytes then Some bodyBytes else None in
         match NewRequestWithContext method urlStr body with
         | inl e => finish (Some (Wrap "failed to create request" e)) result k
         | inr req0 =>
             let req := setHeaders req0 in
             prepend [EvDo req]
               match Do k req with
               | inl e =>
                   retryLoop fuel' (attempt + 1) (S k)
                     (Some (Wrap "request failed" e)) result
               | inr resp =>
                   let (lastErr', result') := handleResponse resp result in
                   match lastErr' with
                   | None => finish None result' (S k)
                   | Some _ =>
                       if (400 <=? StatusCode resp) && (StatusCode resp <? 500)
                          && negb (StatusCode resp =? StatusTooManyRequests)
                       then finish lastErr' result' (S k)
                       else if (500 <=? StatusCode resp)
                               || (StatusCode resp =? StatusTooManyRequests)
                       then retryLoop fuel' (attempt + 1) (S k) lastErr' result'
                       else finish lastErr' result' (S k)
                   end
               end
         end)
  end.

(** [for attempt := 0; attempt <= c.config.MaxRetries; attempt++]: the
    body runs [MaxRetries + 1] times at most, and not at all for a
    negative [MaxRetries].  The loop variable is followed as an unbounded
    integer: it stays below 2^63 unless the loop has already run 2^63
    times. *)
Definition retry (k : nat) (result : option T) : Run T :=
  retryLoop (Z.to_nat (MaxRetries c + 1)) 0 k None result.
End Loop.

(** *** [executeWithRetry] *)
Definition jsonHeaders (bodyBytes : bytes) (req : Request) : Request :=
  let req := if 0 <? len bodyBytes
             then Request_Set req "Content-Type" "application/json" else req in
  let req := Request_Set req "User-Agent" (UserAgent c) in
  if negb (String.eqb (Token c) "")
  then Request_Set req "Authorization" ("Bearer " ++ Token c) else req.

Definition executeWithRetry (method urlStr : string) (bodyBytes : bytes)
    (k : nat) (result : option T) : Run T :=
  retry (jsonHeaders bodyBytes) method urlStr bodyBytes k result.

(** *** [executeRawWithRetry] *)
Definition rawHeaders (contentType contentEncoding : string) (req : Request) : Request :=
  let req := if negb (String.eqb contentType "")
             then Request_Set req "Content-Type" contentType else req in
  let req := if negb (String.eqb contentEncoding "")
             then Request_Set req "Content-Encoding" contentEncoding else req in
  let req := if negb (String.eqb (Token c) "")
             then Request_Set req "Authorization" ("Bearer " ++ Token c) else req in
  Request_Set req "User-Agent" (UserAgent c).

Definition executeRawWithRetry (method urlStr : string) (bodyBytes : bytes)
    (contentType contentEncoding : string) (k : nat) (result : option T) : Run T :=
  retry (rawHeaders contentType contentEncoding) method urlStr bodyBytes k result.

(** [PostRaw] *)
Definition PostRaw (urlStr : string) (body : bytes) (contentType contentEncoding : string)
    (k : nat) (result : option T) : Run T :=
  executeRawWithRetry "POST" urlStr body contentType contentEncoding k result.

Definition execute (x : executor) (method urlStr : string) (bodyBytes : bytes)
    (k : nat) (result : option T) : Run T :=
  match x with
  | Structured => executeWithRetry method urlStr bodyBytes k result
  | Raw contentType contentEncoding =>
      executeRawWithRetry method urlStr bodyBytes contentType contentEncoding k result
  end.

Definition headersOf (x : executor) (bodyBytes : bytes) : Request -> Request :=
  match x with
  | Structured => jsonHeaders bodyBytes
  | Raw contentType contentEncoding => rawHeaders contentType contentEncoding
  end.

(** The request an attempt of [execute x] sends once it is built. *)
Definition requestOf (x : executor) (method urlStr : string) (bodyBytes : bytes) : Request :=
  headersOf x bodyBytes
    {| Method := method; URL := urlStr;
       Body := if 0 <? len bodyBytes then Some bodyBytes else None;
       Headers := [] |}.
End Executor.

(** ** struct.go: the reflective query encoder *)

(** [reflect.StructField]: the field name, the package path (empty for an
    exported field) and the struct tag as its [key:"value"] pairs in the
    order they are written. *)
Record StructField : Type := {
  Name : string;
  PkgPath : string;
  Tag : list (string * string)
}.

(** [field.IsExported()]. *)
Definition IsExported (field : StructField) : bool := String.eqb (PkgPath field) "".

(** [field.Tag.Get(key)]: the value of the first pair with that key, or
    the empty string. *)
Fixpoint Tag_Get (tag : list (string * string)) (key : string) : string :=
  match tag with
  | [] => ""
  | (k, v) :: rest => if String.eqb k key then v else Tag_Get rest key
  end.

(** A [reflect.Value], by [Kind].  [VInt] stands for the kinds [Int] to
    [Int64] (with [v.Int()]), [VUint] for [Uint] to [Uint64] (with
    [v.Uint()]); floats are kept as their IEEE 754 bit patterns; [VOther]
    stands for the kinds neither function below has a case for
    ([Complex64], [Complex128], [Chan], [Func], [UnsafePointer]). *)
#[warnings="-register-all"]
Inductive value : Type :=
| VString (s : string)
| VBool (b : bool)
| VInt (i : Z)
| VUint (u : Z)
| VUintptr (u : Z)
| VFloat32 (bits : Z)
| VFloat64 (bits : Z)
| VSlice (elems : list value)
| VArray (elems : list value)
| VMap (entries : list (value * value))
| VPtr (elem : option value)
| VInterface (elem : option value)
| VStruct (fields : list (StructField * value))
| VOther (kind : string).

(** Text functions left to the Go library: [strconv.FormatFloat(f, 'f',
    -1, bitSize)] on the bit pattern of [f], [fmt.Sprintf("%v", x)], and
    [strings.Map(unicode.ToLower, s)], the lower-casing by the Unicode
    tables that [strings.ToLower] falls back to. *)
Class Formatter : Type := {
  FormatFloat : Z -> Z -> string;
  Sprint : value -> string;
  Map_unicode_ToLower : string -> string
}.

(** [strings.ToLower]: a string of ASCII bytes is lower-cased byte by
    byte; a string with a byte of 0x80 or more goes through the Unicode
    tables. *)
Definition ToLower `{Formatter} (s : string) : string :=
  if isASCII s then ToLowerASCII s else Map_unicode_ToLower s.

(** [f == 0] on a float of [width] bits: every bit but the sign is 0. *)
Definition float_is_zero (width bits : Z) : bool :=
  Z.land bits (2 ^ (width - 1) - 1) =? 0.

(** *** [isZeroValue] *)
Definition isZeroValue (v : value) : bool :=
  match v with
  | VArray elems | VSlice elems => len elems =? 0
  | VMap entries => len entries =? 0
  | VString s => Z.of_nat (String.length s) =? 0
  | VBool b => negb b
  | VInt i => i =? 0
  | VUint u | VUintptr u => u =? 0
  | VFloat32 bits => float_is_zero 32 bits
  | VFloat64 bits => float_is_zero 64 bits
  | VInterface elem | VPtr elem =>
      match elem with None => true | Some _ => false end
  | VStruct _ | VOther _ => false
  end.

(** *** [getParamName] *)
Definition getParamName `{Formatter} (field : StructField) : string :=
  let tag := Tag_Get (Tag field) "url" in
  if negb (String.eqb tag "") then before_comma tag else
  let tag := Tag_Get (Tag field) "query" in
  if negb (String.eqb tag "") then before_comma tag else
  let tag := Tag_Get (Tag field) "json" in
  if negb (String.eqb tag "") then before_comma tag else
  ToLower (Name field).

(** The default values the specification names: the empty string, a zero
    number (integer, unsigned or float [+0]), [false], a nil pointer, an
    empty slice. *)
Definition holds_default (v : value) : bool :=
  match v with
  | VString s => String.eqb s ""
  | VInt i | VUint i | VUintptr i => i =? 0
  | VFloat32 bits | VFloat64 bits => bits =? 0
  | VBool b => negb b
  | VPtr None => true
  | VSlice [] => true
  | _ => false
  end.

Section Encoder.
Context `{Formatter}.

(** *** [fieldToStrings] *)
Fixpoint fieldToStrings (v : value) : list string :=
  match v with
  | VString s => [s]
  | VInt i => [FormatInt i]
  | VUint u => [FormatUint u]
  | VFloat32 bits => [FormatFloat bits 32]
  | VFloat64 bits => [FormatFloat bits 64]
  | VBool b => [FormatBool b]
  | VSlice elems | VArray elems => flat_map fieldToStrings elems
  | VPtr None => []
  | VPtr (Some elem) => fieldToStrings elem
  | _ => [Sprint v]
  end.

(** One iteration of the loop over the fields in [StructToQueryParams]. *)
Definition addField (params : Values) (f : StructField * value) : Values :=
  let (field, fieldValue) := f in
  if negb (IsExported field) then params else
  let paramName := getParamName field in
  if String.eqb paramName "" || String.eqb paramName "-" then params else
  if isZeroValue fieldValue then params else
  fold_left (fun p val => Values_Add p paramName val) (fieldToStrings fieldValue) params.

(** *** [StructToQueryParams]

    [input] is the [interface{}] argument: [None] is nil, [Some v] holds
    the value [reflect.ValueOf(input)]. *)
Definition StructToQueryParams (input : option value) : string :=
  match input with
  | None => ""
  | Some v =>
      let deref := match v with
                   | VPtr None => None
                   | VPtr (Some elem) => Some elem
                   | _ => Some v
                   end in
      match deref with
      | None => ""
      | Some (VStruct fields) => Values_Encode (fold_left addField fields [])
      | Some _ => ""
      end
  end.
End Encoder.

(** ** The verbs and [makeRequest] (client.go) *)

(** The [data interface{}] argument of [makeRequest] by dynamic type: nil,
    a [map[string]string] (its entries in the order [range] visits them;
    a nil map is the empty list), or any other value. *)
Inductive payload : Type :=
| NoData
| MapData (params : list (string * string))
| OtherData (v : value).

(** [net/url]: [url.Parse], the [RawQuery] field of a [*url.URL] read and
    assigned, and [u.String()]. *)
Class URLs : Type := {
  ParsedURL : Type;
  url_Parse : string -> error + ParsedURL;
  RawQuery : ParsedURL -> string;
  set_RawQuery : ParsedURL -> string -> ParsedURL;
  URL_String : ParsedURL -> string
}.

(** [json.Marshal]. *)
Class Marshaller : Type := {
  json_Marshal : payload -> error + bytes
}.

(** [mime/multipart] writing one file part into a buffer:
    [CreateFormFile], [part.Write], [writer.Close], then [buf.Bytes()]
    and [writer.FormDataContentType()]. *)
Inductive multipart_result : Type :=
| CreateFormFileFailed (e : error)
| PartWriteFailed (e : error)
| WriterCloseFailed (e : error)
| Form (body : bytes) (contentType : string).

Class Multipart : Type := {
  multipart_file : string -> string -> bytes -> multipart_result
}.

(** [values := url.Values{}; for k, v := range paramsMap { values.Add(k, v) }] *)
Definition valuesOf (paramsMap : list (string * string)) : Values :=
  fold_left (fun values kv => Values_Add values (fst kv) (snd kv)) paramsMap [].

Section Verbs.
Context {T : Type} `{Transport} `{Decoder T} `{Formatter} `{URLs} `{Marshaller} `{Multipart}.
Variable c : Config.

(** The first half of [makeRequest]: the URL and the body handed to
    [executeWithRetry], or the error returned before it is reached. *)
Definition prepareRequest (method urlStr : string) (data : payload) : error + string * bytes :=
  if String.eqb method "GET" || String.eqb method "DELETE" then
    match data with
    | NoData => inr (urlStr, [])
    | _ =>
        let queryParams :=
          match data with
          | MapData paramsMap => Values_Encode (valuesOf paramsMap)
          | OtherData v => StructToQueryParams (Some v)
          | NoData => ""
          end in
        if negb (String.eqb queryParams "") then
          match url_Parse urlStr with
          | inl err => inl (Wrap "invalid URL" err)
          | inr parsedURL =>
              let parsedURL :=
                if negb (String.eqb (RawQuery parsedURL) "")
                then set_RawQuery parsedURL (RawQuery parsedURL ++ "&" ++ queryParams)
                else set_RawQuery parsedURL queryParams in
              inr (URL_String parsedURL, [])
          end
        else inr (urlStr, [])
    end
  else
    match data with
    | NoData => inr (urlStr, [])
    | _ =>
        match json_Marshal data with
        | inl err => inl (Wrap "failed to marshal request body" err)
        | inr bodyBytes => inr (urlStr, bodyBytes)
        end
    end.

(** *** [makeRequest] *)
Definition makeRequest (method urlStr : string) (data : payload)
    (k : nat) (result : option T) : Run T :=
  match prepareRequest method urlStr data with
  | inl e => finish (Some e) result k
  | inr (urlStr', bodyBytes) => executeWithRetry c method urlStr' bodyBytes k result
  end.

(** [Get], [Delete]: the [params map[string]string] argument reaches
    [makeRequest] as a non-nil interface even when the map is nil. *)
Definition Get (urlStr : string) (params : list (string * string))
    (k : nat) (result : option T) : Run T :=
  makeRequest "GET" urlStr (MapData params) k result.

Definition Delete (urlStr : string) (params : list (string * string))
    (k : nat) (result : option T) : Run T :=
  makeRequest "DELETE" urlStr (MapData params) k result.

(** [Post], [Put], [Patch]. *)
Definition Post (urlStr : string) (body : payload) (k : nat) (result : option T) : Run T :=
  makeRequest "POST" urlStr body k result.

Definition Put (urlStr : string) (body : payload) (k : nat) (result : option T) : Run T :=
  makeRequest "PUT" urlStr body k result.

Definition Patch (urlStr : string) (body : payload) (k : nat) (result : option T) : Run T :=
  makeRequest "PATCH" urlStr body k result.

(** *** [PostMultipart] *)
Definition PostMultipart (urlStr fieldName fileName : string) (fileData : bytes)
    (k : nat) (result : option T) : Run T :=
  match multipart_file fieldName fileName fileData with
  | CreateFormFileFailed e => finish (Some (Wrap "failed to create form file" e)) result k
  | PartWriteFailed e => finish (Some (Wrap "failed to write file data" e)) result k
  | WriterCloseFailed e => finish (Some (Wrap "failed to close multipart writer" e)) result k
  | Form body contentType =>
      executeRawWithRetry c "POST" urlStr body contentType "" k result
  end.
End Verbs.

(** The total of the suspensions a call asked for, in nanoseconds. *)
Fixpoint slept (evs : list event) : Z :=
  match evs with
  | [] => 0
  | EvSleep d :: rest => d + slept rest
  | EvDo _ :: rest => slept rest
  end.

(** What [addField] looks at to decide whether a field is sent. *)
Definition is_sent `{Formatter} (f : StructField * value) : bool :=
  IsExported (fst f)
  && negb (String.eqb (getParamName (fst f)) "" || String.eqb (getParamName (fst f)) "-")
  && negb (isZeroValue (snd f)).

End Httpclient.

(* ================================================================== *)
(** * Package [tinybird] *)

Module Tinybird.
Import Go.

(** [ClientOptions], as [DefaultClientOptions] fills it. *)
Record ClientOptions : Type := {
  Host : string;
  Token : string;
  Timeout : Z;
  ApiVersion : string;
  Protocol : string;
  MaxRetries : Z;
  RetryDelay : Z
}.

(** [SendEventsOptions], with the fields [SendEvents] reads. *)
Record SendEventsOptions : Type := {
  Wait : bool;
  Compress : bool;
  CompressionEncoding : string;
  Format : string
}.

(** [WriteResponse]. *)
Record WriteResponse : Type := {
  SuccessfulRows : Z;
  QuarantinedRows : Z
}.

(** The calls the operations make on the [httpclient.Client] interface
    (interfaces.go), with their arguments apart from the context and the
    result pointer. *)
Inductive call : Type :=
| PostRaw (url : string) (body : bytes) (contentType contentEncoding : string)
| PostMultipart (url fieldName fileName : string) (fileData : bytes).

(** An implementation of the interface for results of type [R]: the error
    it returns for a call and what it leaves in the result it was handed. *)
Class HttpClient (R : Type) : Type := {
  serve : call -> R -> option error * R
}.

(** What an operation returns, (response pointer, error), and the calls it
    made on the client. *)
Record Outcome (R : Type) : Type := {
  response : option R;
  err : option error;
  calls : list call
}.
Arguments response {R} _.
Arguments err {R} _.
Arguments calls {R} _.

(** [compress/gzip] writing into a [bytes.Buffer]: [gzip.NewWriter(&buf)],
    [Write(data)], [Close()], [buf.Bytes()]. *)
Inductive gzip_result : Type :=
| GzipWriteFailed (e : error)
| GzipCloseFailed (e : error)
| GzipBytes (b : bytes).

(** The two compression libraries. *)
Class Compressors : Type := {
  gzip_Writer : bytes -> gzip_result;
  zstd_NewWriter : option error;
  zstd_EncodeAll : bytes -> bytes
}.

Definition baseUrl (c : ClientOptions) (path : string) : string :=
  Protocol c ++ "://" ++ Host c ++ "/" ++ ApiVersion c ++ "/" ++ path.

(** ** events.go *)
Section Events.
Context `{Compressors} `{HttpClient WriteResponse}.
Variable c : ClientOptions.

(** The body to send and its content encoding, or the error returned
    before any call. *)
Definition prepareBody (data : bytes) (options : SendEventsOptions) : error + bytes * string :=
  if Compress options then
    let encoding := if String.eqb (CompressionEncoding options) "" then "gzip"
                    else CompressionEncoding options in
    if String.eqb encoding "gzip" then
      match gzip_Writer data with
      | GzipWriteFailed e => inl (Wrap "failed to compress data" e)
      | GzipCloseFailed e => inl (Wrap "failed to close gzip writer" e)
      | GzipBytes b => inr (b, encoding)
      end
    else if String.eqb encoding "zstd" then
      match zstd_NewWriter with
      | Some e => inl (Wrap "failed to create zstd encoder" e)
      | None => inr (zstd_EncodeAll data, encoding)
      end
    else inl (ErrorString ("unsupported compression encoding: " ++ encoding))
  else inr (data, "").

Definition SendEvents (datasourceName : string) (data : bytes)
    (options : option SendEventsOptions) : Outcome WriteResponse :=
  let options := match options with
                 | None => {| Wait := false; Compress := false;
                              CompressionEncoding := ""; Format := "" |}
                 | Some o => o
                 end in
  let reqUrl := baseUrl c "events" ++ "?name=" ++ QueryEscape datasourceName in
  let reqUrl := if Wait options then reqUrl ++ "&wait=true" else reqUrl in
  let reqUrl := if negb (String.eqb (Format options) "")
                then reqUrl ++ "&format=" ++ QueryEscape (Format options) else reqUrl in
  match prepareBody data options with
  | inl e => {| response := None; err := Some e; calls := [] |}
  | inr (body, contentEncoding) =>
      let contentType := if String.eqb (Format options) "json"
                         then "application/json" else "application/x-ndjson" in
      let post := PostRaw reqUrl body contentType contentEncoding in
      match serve post {| SuccessfulRows := 0; QuarantinedRows := 0 |} with
      | (Some e, _) => {| response := None; err := Some e; calls := [post] |}
      | (None, response) => {| response := Some response; err := None; calls := [post] |}
      end
  end.
End Events.

(** ** analyze.go *)

(** The [interface{}] argument of [Analyze] by dynamic type: nil, a
    [[]byte], a [string], or a value of another type, of which only the
    name ([%T]) is used. *)
Inductive any : Type :=
| Nil
| Bytes (v : bytes)
| Str (v : string)
| Other (typeName : string).

(** The [%T] verb. *)
Definition typeName_of (input : any) : string :=
  match input with
  | Nil => "<nil>"
  | Bytes _ => "[]uint8"
  | Str _ => "string"
  | Other typeName => typeName
  end.

Section Analyze.
Context {AnalyzeResponse : Type} `{HttpClient AnalyzeResponse}.
(** [var response AnalyzeResponse] *)
Variable zero : AnalyzeResponse.
Variable c : ClientOptions.

Definition Analyze (input : any) : Outcome AnalyzeResponse :=
  let baseUrl := baseUrl c "analyze" in
  let via (request : call) :=
    match serve request zero with
    | (Some e, _) => {| response := None; err := Some e; calls := [request] |}
    | (None, response) => {| response := Some response; err := None; calls := [request] |}
    end in
  match input with
  | Bytes v => via (PostMultipart baseUrl "file" "data" v)
  | Str v => via (PostRaw (baseUrl ++ "?url=" ++ QueryEscape v) [] "" "")
  | _ =>
      {| response := None;
         err := Some (ErrorString ("unsupported input type: expected []byte or string, got "
                                   ++ typeName_of input));
         calls := [] |}
  end.
End Analyze.

(** ** Options and construction (the option functions, [NewClientOptions],
    [DefaultClientOptions], [NewClient]) *)

Definition VERSION : string := "0.2.0".

(** The type [Option], a function on a pointer to [ClientOptions], as the
    update it performs. *)
Definition Option : Type := ClientOptions -> ClientOptions.

(** [os.Getenv]. *)
Class Env : Type := {
  Getenv : string -> string
}.

(** The option functions [ApiVersion], [Protocol], [Timeout], [Host],
    [Token], [MaxRetries] and [RetryDelay]. *)
Module Opt.
Definition ApiVersion (version : string) : Option := fun co =>
  {| Tinybird.Host := Tinybird.Host co;
     Tinybird.Token := Tinybird.Token co;
     Tinybird.Timeout := Tinybird.Timeout co;
     Tinybird.ApiVersion := version;
     Tinybird.Protocol := Tinybird.Protocol co;
     Tinybird.MaxRetries := Tinybird.MaxRetries co;
     Tinybird.RetryDelay := Tinybird.RetryDelay co |}.
Definition Protocol (protocol : string) : Option := fun co =>
  {| Tinybird.Host := Tinybird.Host co;
     Tinybird.Token := Tinybird.Token co;
     Tinybird.Timeout := Tinybird.Timeout co;
     Tinybird.ApiVersion := Tinybird.ApiVersion co;
     Tinybird.Protocol := protocol;
     Tinybird.MaxRetries := Tinybird.MaxRetries co;
     Tinybird.RetryDelay := Tinybird.RetryDelay co |}.
Definition Timeout (timeout : Z) : Option := fun co =>
  {| Tinybird.Host := Tinybird.Host co;
     Tinybird.Token := Tinybird.Token co;
     Tinybird.Timeout := timeout;
     Tinybird.ApiVersion := Tinybird.ApiVersion co;
     Tinybird.Protocol := Tinybird.Protocol co;
     Tinybird.MaxRetries := Tinybird.MaxRetries co;
     Tinybird.RetryDelay := Tinybird.RetryDelay co |}.
Definition Host (host : string) : Option := fun co =>
  {| Tinybird.Host := host;
     Tinybird.Token := Tinybird.Token co;
     Tinybird.Timeout := Tinybird.Timeout co;
     Tinybird.ApiVersion := Tinybird.ApiVersion co;
     Tinybird.Protocol := Tinybird.Protocol co;
     Tinybird.MaxRetries := Tinybird.MaxRetries co;
     Tinybird.RetryDelay := Tinybird.RetryDelay co |}.
Definition Token (token : string) : Option := fun co =>
  {| Tinybird.Host := Tinybird.Host co;
     Tinybird.Token := token;
     Tinybird.Timeout := Tinybird.Timeout co;
     Tinybird.ApiVersion := Tinybird.ApiVersion co;
     Tinybird.Protocol := Tinybird.Protocol co;
     Tinybird.MaxRetries := Tinybird.MaxRetries co;
     Tinybird.RetryDelay := Tinybird.RetryDelay co |}.
Definition MaxRetries (retries : Z) : Option := fun co =>
  {| Tinybird.Host := Tinybird.Host co;
     Tinybird.Token := Tinybird.Token co;
     Tinybird.Timeout := Tinybird.Timeout co;
     Tinybird.ApiVersion := Tinybird.ApiVersion co;
     Tinybird.Protocol := Tinybird.Protocol co;
     Tinybird.MaxRetries := retries;
     Tinybird.RetryDelay := Tinybird.RetryDelay co |}.
Definition RetryDelay (delay : Z) : Option := fun co =>
  {| Tinybird.Host := Tinybird.Host co;
     Tinybird.Token := Tinybird.Token co;
     Tinybird.Timeout := Tinybird.Timeout co;
     Tinybird.ApiVersion := Tinybird.ApiVersion co;
     Tinybird.Protocol := Tinybird.Protocol co;
     Tinybird.MaxRetries := Tinybird.MaxRetries co;
     Tinybird.RetryDelay := delay |}.
End Opt.

(** [time.Second], in nanoseconds. *)
Definition Second : Z := 1000000000.

Section Options.
Context `{Env}.

(** [NewClientOptions]: the options are applied in order to the zero
    [ClientOptions], then every field still zero gets its default. *)
Definition NewClientOptions (options : list Option) : ClientOptions :=
  let co := fold_left (fun co option => option co) options
              {| Host := ""; Token := ""; Timeout := 0; ApiVersion := "";
                 Protocol := ""; MaxRetries := 0; RetryDelay := 0 |} in
  {| Host := if String.eqb (Host co) "" then "https://api.tinybird.co" else Host co;
     Token := if String.eqb (Token co) "" then Getenv "TINYBIRD_TOKEN" else Token co;
     Timeout := if Timeout co =? 0 then 15 * Second else Timeout co;
     ApiVersion := if String.eqb (ApiVersion co) "" then "v0" else ApiVersion co;
     Protocol := if String.eqb (Protocol co) "" then "https" else Protocol co;
     MaxRetries := if MaxRetries co =? 0 then 3 else MaxRetries co;
     RetryDelay := if RetryDelay co =? 0 then 2 * Second else RetryDelay co |}.

(** [DefaultClientOptions]. *)
Definition DefaultClientOptions : ClientOptions :=
  {| Host := "https://api.tinybird.co"; Token := Getenv "TINYBIRD_TOKEN";
     Timeout := 15 * Second; ApiVersion := "v0"; Protocol := "https";
     MaxRetries := 3; RetryDelay := 2 * Second |}.
End Options.

(** The configuration [NewClient] hands to [httpclient.New] when it is
    given no client of its own. *)
Definition clientConfig (options : ClientOptions) : Httpclient.Config :=
  {| Httpclient.Timeout := Timeout options;
     Httpclient.RetryDelay := RetryDelay options;
     Httpclient.MaxRetries := MaxRetries options;
     Httpclient.UserAgent := "com.nollywood/tinybirdclient/" ++ VERSION;
     Httpclient.Token := Token options |}.

(** [ClientImpl]: the [httpClient] field is the client passed in ([inl])
    or one made by [httpclient.New] from a configuration ([inr]). *)
Record ClientImpl (H : Type) : Type := {
  httpClient : H + Httpclient.Config;
  options : ClientOptions
}.
Arguments httpClient {H} _.
Arguments options {H} _.

(** [NewClient]: [http] is [None] for a nil client. *)
Definition NewClient {H : Type} (options : ClientOptions) (http : option H) : ClientImpl H :=
  {| httpClient := match http with
                   | None => inr (clientConfig options)
                   | Some h => inl h
                   end;
     options := options |}.

(** ** [CallEndpoint] *)

(** The [Get] method of the client interface for results of type [E]:
    the error it returns and what it leaves in the result it was handed. *)
Class QueryClient (E : Type) : Type := {
  serve_get : string -> list (string * string) -> E -> option error * E
}.

(** What [CallEndpoint] returns and leaves behind: the error, the state of
    the value the caller's [result] points to, and the [Get] calls made
    (URL and parameters). *)
Record Queried (R : Type) : Type := {
  query_err : option error;
  caller_result : R;
  gets : list (string * list (string * string))
}.
Arguments query_err {R} _.
Arguments caller_result {R} _.
Arguments gets {R} _.

Section Endpoint.
Context {EndpointResponse R : Type} `{QueryClient EndpointResponse}.
(** [var response EndpointResponse] *)
Variable zero : EndpointResponse.
Variable c : ClientOptions.

Definition CallEndpoint (endpointName : string) (params : list (string * string))
    (result : R) : Queried R :=
  let reqUrl := baseUrl c "pipes" ++ "/" ++ endpointName in
  match serve_get reqUrl params zero with
  | (Some e, _) => {| query_err := Some e; caller_result := result; gets := [(reqUrl, params)] |}
  | (None, _) => {| query_err := None; caller_result := result; gets := [(reqUrl, params)] |}
  end.
End Endpoint.

End Tinybird.

(* ================================================================== *)
(** * Sample environments

    Concrete transports, decoders and clients on which the operations can
    be run. *)

Module Sample.
Import Go.

(** A transport that answers the calls from a script, in order, and fails
    with a connection error once the script is used up. *)
Definition scripted (script : list (error + Httpclient.Response)) : Httpclient.Transport :=
  {| Httpclient.request_error := fun _ _ => None;
     Httpclient.Do := fun k _ => nth k script (inl (ErrorString "connection refused")) |}.

(** A transport on which no request can be built. *)
Definition unbuildable : Httpclient.Transport :=
  {| Httpclient.request_error := fun _ _ => Some (ErrorString "invalid method");
     Httpclient.Do := fun _ _ => inl (ErrorString "connection refused") |}.

(** A decoder into a byte buffer: a body that opens with a brace is stored,
    any other body is refused and the target keeps its value. *)
Definition braces : Httpclient.Decoder bytes :=
  {| Httpclient.json_Unmarshal := fun body t =>
       match body with
       | "{"%byte :: _ => (body, None)
       | _ => (t, Some (ErrorString "invalid character"))
       end |}.

Definition status (code : Z) (text : string) (body : bytes) : error + Httpclient.Response :=
  inr {| Httpclient.StatusCode := code; Httpclient.Status := text;
         Httpclient.ReadAll := inr body |}.

Definition config (retries delay : Z) : Httpclient.Config :=
  {| Httpclient.Timeout := 15000000000; Httpclient.RetryDelay := delay;
     Httpclient.MaxRetries := retries;
     Httpclient.UserAgent := "com.nollywood/tinybirdclient/0.2.0";
     Httpclient.Token := "secret" |}.

(** Lower-casing of UTF-8 text that knows the ASCII letters and the
    capital letters of Latin-1 (U+00C0 to U+00DE, the bytes C3 80 to
    C3 9E, without the multiplication sign C3 97). *)
Fixpoint latin1_lower (s : string) : string :=
  match s with
  | EmptyString => EmptyString
  | String c1 s' =>
      match s' with
      | String c2 rest =>
          if Ascii.eqb c1 (ascii_of_nat 195)
             && (128 <=? nat_of_ascii c2)%nat && (nat_of_ascii c2 <=? 158)%nat
             && negb (nat_of_ascii c2 =? 151)%nat
          then String c1 (String (ascii_of_nat (nat_of_ascii c2 + 32)) (latin1_lower rest))
          else String (lower c1) (latin1_lower s')
      | EmptyString => String (lower c1) EmptyString
      end
  end.

(** Stand-ins for the Go formatters: a float is shown by its bit pattern,
    any other value by its kind; lower-casing of non-ASCII text covers
    Latin-1. *)
Definition plain : Httpclient.Formatter :=
  {| Httpclient.FormatFloat := fun bits _ => FormatInt bits;
     Httpclient.Sprint := fun v =>
       match v with
       | Httpclient.VStruct _ => "{}"
       | Httpclient.VOther kind => kind
       | _ => "?"
       end;
     Httpclient.Map_unicode_ToLower := latin1_lower |}.

Definition field (name : string) (tag : list (string * string)) (v : Httpclient.value)
  : Httpclient.StructField * Httpclient.value :=
  ({| Httpclient.Name := name; Httpclient.PkgPath := ""; Httpclient.Tag := tag |}, v).

(** A client that accepts every call and leaves the result as it is, as
    a mock returning nil does. *)
Definition accepting (R : Type) : Tinybird.HttpClient R :=
  {| Tinybird.serve := fun _ r => (None, r) |}.

(** A pair of framing codecs: each puts the magic number of its format in
    front of the data. *)
Definition framing : Tinybird.Compressors :=
  {| Tinybird.gzip_Writer := fun d => Tinybird.GzipBytes (x1f :: x8b :: d);
     Tinybird.zstd_NewWriter := None;
     Tinybird.zstd_EncodeAll := fun d => x28 :: xb5 :: x2f :: xfd :: d |}.

(** The reader for the first of them. *)
Definition unframe (b : bytes) : option bytes :=
  match b with
  | x1f :: x8b :: d => Some d
  | _ => None
  end.

Definition options : Tinybird.ClientOptions :=
  {| Tinybird.Host := "api.tinybird.co"; Tinybird.Token := "secret";
     Tinybird.Timeout := 15000000000; Tinybird.ApiVersion := "v0";
     Tinybird.Protocol := "https"; Tinybird.MaxRetries := 3;
     Tinybird.RetryDelay := 2000000000 |}.

End Sample.

(** Further sample environments, for the verbs, the options and the pipe
    query. *)
Module Fixture.
Import Go.

Fixpoint split_query (s : string) : string * string :=
  match s with
  | EmptyString => (EmptyString, EmptyString)
  | String ch rest =>
      if Ascii.eqb ch "?" then (EmptyString, rest)
      else let (front, query) := split_query rest in (String ch front, query)
  end.

(** URLs cut at their first question mark; a URL that opens with a colon
    is refused, as [url.Parse] refuses a missing scheme. *)
Definition urls : Httpclient.URLs :=
  {| Httpclient.ParsedURL := string * string;
     Httpclient.url_Parse := fun s =>
       match s with
       | String ":" _ => inl (ErrorString "missing protocol scheme")
       | _ => inr (split_query s)
       end;
     Httpclient.RawQuery := snd;
     Httpclient.set_RawQuery := fun u q => (fst u, q);
     Httpclient.URL_String := fun u =>
       if String.eqb (snd u) "" then fst u else fst u ++ "?" ++ snd u |}.

(** A transport on the same footing: [http.NewRequestWithContext] parses
    the URL with [url.Parse] and hands back its error; every call on the
    network fails. *)
Definition strict : Httpclient.Transport :=
  {| Httpclient.request_error := fun _ s =>
       match s with
       | String ":" _ => Some (ErrorString "missing protocol scheme")
       | _ => None
       end;
     Httpclient.Do := fun _ _ => inl (ErrorString "connection refused") |}.

(** A marshaller that knows two documents and refuses the kinds
    [json.Marshal] has no encoding for. *)
Definition marshaller : Httpclient.Marshaller :=
  {| Httpclient.json_Marshal := fun data =>
       match data with
       | Httpclient.NoData => inr (list_byte_of_string "null")
       | Httpclient.OtherData (Httpclient.VOther kind) =>
           inl (ErrorString ("json: unsupported type: " ++ kind))
       | _ => inr (list_byte_of_string "{}")
       end |}.

(** A multipart writer with a fixed boundary. *)
Definition multipart : Httpclient.Multipart :=
  {| Httpclient.multipart_file := fun fieldName fileName fileData =>
       Httpclient.Form
         (list_byte_of_string ("--b; name=" ++ fieldName ++ "; filename=" ++ fileName ++ ";")
            ++ fileData)%list
         "multipart/form-data; boundary=b" |}.

(** An environment where only the token variable is set. *)
Definition env : Tinybird.Env :=
  {| Tinybird.Getenv := fun name =>
       if String.eqb name "TINYBIRD_TOKEN" then "from-env" else "" |}.

(** A pipe client that answers every query with 7 rows. *)
Definition pipes : Tinybird.QueryClient nat :=
  {| Tinybird.serve_get := fun _ _ _ => (None, 7%nat) |}.

(** A client that writes a result and then reports an error. *)
Definition failing (R : Type) (leftover : R) : Tinybird.HttpClient R :=
  {| Tinybird.serve := fun _ _ => (Some (ErrorString "HTTP 403: 403 Forbidden"), leftover) |}.

(** Compression libraries that fail: the gzip writer on closing, the
    zstd encoder on creation. *)
Definition broken : Tinybird.Compressors :=
  {| Tinybird.gzip_Writer := fun _ => Tinybird.GzipCloseFailed (ErrorString "short write");
     Tinybird.zstd_NewWriter := Some (ErrorString "invalid option");
     Tinybird.zstd_EncodeAll := fun d => d |}.

End Fixture.

(* ================================================================== *)
(** * Properties of the retry executor *)

Module ExecutorProps.
Import Go Httpclient.

Ltac status_cases sc :=
  destruct (Z.leb_spec 200 sc), (Z.ltb_spec sc 300), (Z.leb_spec 400 sc),
    (Z.ltb_spec sc 500), (Z.leb_spec 500 sc), (Z.eqb_spec sc StatusTooManyRequests),
    (Z.eqb_spec sc StatusNoContent);
  unfold StatusTooManyRequests, StatusNoContent in *; cbn [andb orb negb]; try lia.

Section Response.
Context {T : Type} `{Decoder T}.

Lemma handleResponse_failure (resp : Response) (result : option T) :
  ~ 200 <= StatusCode resp < 300 ->
  exists e, handleResponse resp result = (Some e, result).
Proof.
  intros Hs. unfold handleResponse.
  destruct (ReadAll resp) as [e | body]; [eauto |].
  status_cases (StatusCode resp); destruct (0 <? len body); eauto.
Qed.

Lemma handleResponse_read_error (resp : Response) (result : option T) (e : error) :
  ReadAll resp = inl e ->
  handleResponse resp result = (Some (Wrap "failed to read response body" e), result).
Proof. intros Hr. unfold handleResponse. now rewrite Hr. Qed.

Lemma handleResponse_decode_error (resp : Response) (t t' : T) (body : bytes) (e : error) :
  200 <= StatusCode resp < 300 ->
  StatusCode resp <> StatusNoContent ->
  ReadAll resp = inr body ->
  body <> [] ->
  json_Unmarshal body t = (t', Some e) ->
  handleResponse resp (Some t) = (Some (Wrap "failed to unmarshal response" e), Some t').
Proof.
  intros Hs Hn Hr Hb Hu. unfold handleResponse. rewrite Hr.
  status_cases (StatusCode resp).
  destruct body as [| b body]; [congruence |].
  cbn. now rewrite Hu.
Qed.

(** C10, as amended.  For a response with a status in 200-299: when its
    body is read without error and the status is 204, or the body is
    empty, or the caller gave no decode target, [handleResponse] returns
    the nil error and the target as it was, whatever the decoder is (it is
    not consulted); when reading the body fails, it returns the "failed to
    read response body" error, the target again as it was. *)
Theorem no_decode_leaves_target (resp : Response) (result : option T) :
  200 <= StatusCode resp <= 299 ->
  (forall body,
      ReadAll resp = inr body ->
      StatusCode resp = 204 \/ body = [] \/ result = None ->
      handleResponse resp result = (None, result))
  /\ (forall e,
        ReadAll resp = inl e ->
        handleResponse resp result
        = (Some (Wrap "failed to read response body" e), result)).
Proof.
  intros Hs. split.
  - intros body Hr Hc. unfold handleResponse. rewrite Hr.
    status_cases (StatusCode resp); destruct result as [t |]; try reflexivity;
      destruct Hc as [Hc | [-> | Hc]]; try lia; try discriminate; reflexivity.
  - intros e. apply handleResponse_read_error.
Qed.

End Response.

(** C10 on a 204 response and a caller with a target. *)
Lemma no_decode_leaves_target_witness :
  let resp := {| StatusCode := 204; Status := "204 No Content"; ReadAll := inr [] |} in
  (forall body,
      ReadAll resp = inr body ->
      StatusCode resp = 204 \/ body = [] \/ Some ["{"%byte] = None ->
      @handleResponse bytes Sample.braces resp (Some ["{"%byte]) = (None, Some ["{"%byte]))
  /\ (forall e,
        ReadAll resp = inl e ->
        @handleResponse bytes Sample.braces resp (Some ["{"%byte])
        = (Some (Wrap "failed to read response body" e), Some ["{"%byte])).
Proof.
  apply (@no_decode_leaves_target bytes Sample.braces
           {| StatusCode := 204; Status := "204 No Content"; ReadAll := inr [] |}
           (Some ["{"%byte])).
  cbn. lia.
Defined.

(** C10 as stated fails: a 200 response whose body cannot be read, for a
    caller without a decode target, does not give the nil error. *)
Lemma no_decode_leaves_target_counterexample :
  ~ (forall (resp : Response) (result : option bytes),
        200 <= StatusCode resp <= 299 ->
        StatusCode resp = 204 \/ ReadAll resp = inr [] \/ result = None ->
        @handleResponse bytes Sample.braces resp result = (None, result)).
Proof.
  intros Hclaim.
  specialize (Hclaim {| StatusCode := 200; Status := "200 OK";
                        ReadAll := inl (ErrorString "unexpected EOF") |} None).
  cbn in Hclaim.
  assert (Hnil : Some (Wrap "failed to read response body" (ErrorString "unexpected EOF"))
                 = @None error)
    by (apply (f_equal fst) in Hclaim; [exact Hclaim | lia | now right; right]).
  discriminate Hnil.
Qed.

Section Loop.
Context {T : Type} `{Transport} `{Decoder T}.
Variable c : Config.
Variable x : executor.
Variables method urlStr : string.
Variable bodyBytes : bytes.

Local Abbreviation loop := (retryLoop c (headersOf c x bodyBytes) method urlStr bodyBytes).
Local Abbreviation req := (requestOf c x method urlStr bodyBytes).

Lemma execute_retry (k : nat) (result : option T) :
  execute c x method urlStr bodyBytes k result
  = loop (Z.to_nat (MaxRetries c + 1)) 0 k None result.
Proof. destruct x; reflexivity. Qed.

Lemma attempts_app (l1 l2 : list event) :
  attempts (l1 ++ l2) = (attempts l1 + attempts l2)%nat.
Proof. unfold attempts. now rewrite filter_app, length_app. Qed.

Lemma attempts_pause (a : Z) : attempts (pause c a) = 0%nat.
Proof. unfold pause. now destruct (0 <? a). Qed.

Lemma loop_unbuildable (e : error) (fuel : nat) (a : Z) (k : nat)
    (lastErr : option error) (result : option T) :
  request_error method urlStr = Some e ->
  loop (S fuel) a k lastErr result
  = prepend (pause c a) (finish (Some (Wrap "failed to create request" e)) result k).
Proof.
  intros Hb. cbn [retryLoop]. unfold NewRequestWithContext. now rewrite Hb.
Qed.

Hypothesis buildable : request_error method urlStr = None.

(** One iteration whose network call fails. *)
Lemma loop_transport_error (fuel : nat) (a : Z) (k : nat)
    (lastErr : option error) (result : option T) (e : error) :
  Do k req = inl e ->
  loop (S fuel) a k lastErr result
  = prepend (pause c a)
      (prepend [EvDo req]
         (loop fuel (a + 1) (S k) (Some (Wrap "request failed" e)) result)).
Proof.
  intros Hd. cbn [retryLoop]. unfold NewRequestWithContext. rewrite buildable.
  unfold requestOf in Hd. now rewrite Hd.
Qed.

(** One iteration that gets a response. *)
Lemma loop_response (fuel : nat) (a : Z) (k : nat)
    (lastErr : option error) (result : option T) (resp : Response) :
  Do k req = inr resp ->
  loop (S fuel) a k lastErr result
  = prepend (pause c a)
      (prepend [EvDo req]
         (let (lastErr', result') := handleResponse resp result in
          match lastErr' with
          | None => finish None result' (S k)
          | Some _ =>
              if (400 <=? StatusCode resp) && (StatusCode resp <? 500)
                 && negb (StatusCode resp =? StatusTooManyRequests)
              then finish lastErr' result' (S k)
              else if (500 <=? StatusCode resp)
                      || (StatusCode resp =? StatusTooManyRequests)
              then loop fuel (a + 1) (S k) lastErr' result'
              else finish lastErr' result' (S k)
          end)).
Proof.
  intros Hd. cbn [retryLoop]. unfold NewRequestWithContext. rewrite buildable.
  unfold requestOf in Hd. now rewrite Hd.
Qed.

Lemma loop_client_error (fuel : nat) (a : Z) (k : nat)
    (lastErr : option error) (result : option T) (resp : Response) :
  Do k req = inr resp ->
  400 <= StatusCode resp < 500 ->
  StatusCode resp <> StatusTooManyRequests ->
  exists e,
    handleResponse resp result = (Some e, result)
    /\ loop (S fuel) a k lastErr result
       = prepend (pause c a) (prepend [EvDo req] (finish (Some e) result (S k))).
Proof.
  intros Hd Hs Hn.
  destruct (handleResponse_failure resp result) as [e He]; [lia |].
  exists e. split; [exact He |].
  rewrite (loop_response _ _ _ _ _ _ Hd), He.
  status_cases (StatusCode resp); reflexivity.
Qed.

Lemma loop_retryable (fuel : nat) (a : Z) (k : nat)
    (lastErr : option error) (result : option T) (resp : Response) :
  Do k req = inr resp ->
  500 <= StatusCode resp \/ StatusCode resp = StatusTooManyRequests ->
  exists e,
    handleResponse resp result = (Some e, result)
    /\ loop (S fuel) a k lastErr result
       = prepend (pause c a)
           (prepend [EvDo req] (loop fuel (a + 1) (S k) (Some e) result)).
Proof.
  intros Hd Hs.
  destruct (handleResponse_failure resp result) as [e He];
    [unfold StatusTooManyRequests in Hs; lia |].
  exists e. split; [exact He |].
  rewrite (loop_response _ _ _ _ _ _ Hd), He.
  status_cases (StatusCode resp); reflexivity.
Qed.

(** Whatever the network answers, an iteration either ends the call after
    its one network call or hands over to the next iteration with the
    decode target as it was. *)
Lemma loop_step (fuel : nat) (a : Z) (k : nat)
    (lastErr : option error) (result : option T) :
  (exists e result',
      loop (S fuel) a k lastErr result
      = prepend (pause c a) (prepend [EvDo req] (finish e result' (S k))))
  \/ (exists lastErr',
      loop (S fuel) a k lastErr result
      = prepend (pause c a)
          (prepend [EvDo req] (loop fuel (a + 1) (S k) lastErr' result))).
Proof.
  destruct (Do k req) as [e | resp] eqn:Hd.
  - right. exists (Some (Wrap "request failed" e)). apply loop_transport_error. exact Hd.
  - rewrite (loop_response _ _ _ _ _ _ Hd).
    destruct (Z.leb_spec 500 (StatusCode resp)) as [Hge | Hlt];
      [| destruct (Z.eqb_spec (StatusCode resp) StatusTooManyRequests) as [Heq | Hne]].
    + right. destruct (handleResponse_failure resp result) as [e He]; [lia |].
      rewrite He. exists (Some e). status_cases (StatusCode resp); reflexivity.
    + right. destruct (handleResponse_failure resp result) as [e He];
        [unfold StatusTooManyRequests in Heq; lia |].
      rewrite He. exists (Some e). status_cases (StatusCode resp); reflexivity.
    + left. destruct (handleResponse resp result) as [[e |] result'].
      * exists (Some e), result'.
        status_cases (StatusCode resp); reflexivity.
      * exists None, result'. reflexivity.
Qed.

Lemma loop_success_status (fuel : nat) (a : Z) (k : nat)
    (lastErr : option error) (result result' : option T) (resp : Response) (e : error) :
  Do k req = inr resp ->
  200 <= StatusCode resp < 300 ->
  handleResponse resp result = (Some e, result') ->
  loop (S fuel) a k lastErr result
  = prepend (pause c a) (prepend [EvDo req] (finish (Some e) result' (S k))).
Proof.
  intros Hd Hs He. rewrite (loop_response _ _ _ _ _ _ Hd), He.
  status_cases (StatusCode resp); reflexivity.
Qed.

Lemma extends_refl (r : Run T) : extends [] r r.
Proof. now repeat split. Qed.

Lemma extends_prepend (evs pre : list event) (r r' : Run T) :
  extends pre r r' -> extends (evs ++ pre) (prepend evs r) r'.
Proof.
  intros (He & Hr). split; [| exact Hr].
  cbn. now rewrite He, app_assoc.
Qed.

Lemma attempts_prepend_do (a : Z) (q : Request) (r : Run T) :
  attempts (events (prepend (pause c a) (prepend [EvDo q] r))) = S (attempts (events r)).
Proof. cbn [events prepend]. now rewrite attempts_app, attempts_pause. Qed.

(** A call that makes more than [j] network calls passes through the
    state at the head of iteration [j], with the target untouched. *)
Lemma loop_reaches (j : nat) :
  forall (fuel : nat) (a : Z) (k : nat) (lastErr : option error) (result : option T),
    (j < attempts (events (loop fuel a k lastErr result)))%nat ->
    exists fuel' lastErr' pre,
      fuel = (j + S fuel')%nat /\ attempts pre = j
      /\ extends pre (loop fuel a k lastErr result)
           (loop (S fuel') (a + Z.of_nat j) (k + j) lastErr' result).
Proof.
  induction j as [| j IH]; intros fuel a k lastErr result Hj.
  - destruct fuel as [| fuel]; [cbn in Hj; lia |].
    exists fuel, lastErr, []. split; [reflexivity |]. split; [reflexivity |].
    rewrite Z.add_0_r, Nat.add_0_r. apply extends_refl.
  - destruct fuel as [| fuel]; [cbn in Hj; lia |].
    destruct (loop_step fuel a k lastErr result) as [(e & r' & E) | (lastErr' & E)];
      rewrite E in Hj |- *; rewrite attempts_prepend_do in Hj.
    + cbn in Hj. lia.
    + destruct (IH fuel (a + 1) (S k) lastErr' result) as (fuel' & le & pre & Hf & Hp & He);
        [lia |].
      exists fuel', le, (pause c a ++ [EvDo req] ++ pre)%list. split; [lia |]. split.
      * rewrite attempts_app, attempts_pause. cbn. unfold attempts in Hp. now rewrite Hp.
      * replace (a + Z.of_nat (S j)) with (a + 1 + Z.of_nat j) by lia.
        replace (k + S j)%nat with (S k + j)%nat by lia.
        now apply extends_prepend, extends_prepend.
Qed.

End Loop.

Section Calls.
Context {T : Type} `{Transport} `{Decoder T}.
Variable c : Config.
Variable x : executor.
Variables method urlStr : string.
Variable bodyBytes : bytes.

Local Abbreviation loop := (retryLoop c (headersOf c x bodyBytes) method urlStr bodyBytes).
Local Abbreviation req := (requestOf c x method urlStr bodyBytes).

Lemma loop_unbuildable_attempts (e : error) (fuel : nat) (a : Z) (k : nat)
    (lastErr : option error) (result : option T) :
  request_error method urlStr = Some e ->
  attempts (events (loop fuel a k lastErr result)) = 0%nat.
Proof.
  intros Hb. destruct fuel as [| fuel]; [reflexivity |].
  rewrite (loop_unbuildable c x method urlStr bodyBytes e _ _ _ _ _ Hb).
  cbn [events prepend finish]. now rewrite app_nil_r, attempts_pause.
Qed.

(** The state of the call at the head of attempt [j]. *)
Lemma execute_reaches (k : nat) (result : option T) (j : nat) :
  (j < attempts (events (execute c x method urlStr bodyBytes k result)))%nat ->
  request_error method urlStr = None
  /\ exists fuel' lastErr' pre,
       Z.to_nat (MaxRetries c + 1) = (j + S fuel')%nat /\ attempts pre = j
       /\ extends pre (execute c x method urlStr bodyBytes k result)
            (loop (S fuel') (Z.of_nat j) (k + j) lastErr' result).
Proof.
  rewrite execute_retry. intros Hj.
  destruct (request_error method urlStr) as [e |] eqn:Hb.
  - rewrite (loop_unbuildable_attempts e _ _ _ _ _ Hb) in Hj. lia.
  - split; [reflexivity |].
    exact (loop_reaches c x method urlStr bodyBytes Hb j _ _ _ _ _ Hj).
Qed.

Lemma loop_all_fail :
  request_error method urlStr = None ->
  (forall i q, exists e, Do i q = inl e) ->
  forall (fuel : nat) (a : Z) (k : nat) (lastErr : option error) (result : option T),
    let r := loop fuel a k lastErr result in
    attempts (events r) = fuel /\ calls r = (k + fuel)%nat /\ target r = result
    /\ err r = Some (Wrapf "max retries exceeded"
                       match fuel with
                       | O => lastErr
                       | S f => match Do (k + f) req with
                                | inl e => Some (Wrap "request failed" e)
                                | inr _ => None
                                end
                       end).
Proof.
  intros Hb Hdown. induction fuel as [| fuel IH]; intros a k lastErr result.
  - cbn. rewrite Nat.add_0_r. now repeat split.
  - destruct (Hdown k req) as [e He].
    cbn zeta. rewrite (loop_transport_error c x method urlStr bodyBytes Hb _ _ _ _ _ _ He).
    rewrite attempts_prepend_do. cbn [err target calls prepend].
    destruct (IH (a + 1) (S k) (Some (Wrap "request failed" e)) result)
      as (Ha & Hc & Ht & Herr).
    split; [now rewrite Ha |]. split; [rewrite Hc; lia |]. split; [exact Ht |].
    rewrite Herr. destruct fuel as [| f].
    + now rewrite Nat.add_0_r, He.
    + now replace (S k + f)%nat with (k + S f)%nat by lia.
Qed.

Lemma pause_no_do (a : Z) (q : Request) : ~ In (EvDo q) (pause c a).
Proof. unfold pause. destruct (0 <? a); cbn; intuition discriminate. Qed.

(** Every attempt of a call sends the same request, built afresh. *)
Lemma loop_requests (fuel : nat) :
  forall (a : Z) (k : nat) (lastErr : option error) (result : option T) (q : Request),
    In (EvDo q) (events (loop fuel a k lastErr result)) -> q = req.
Proof.
  induction fuel as [| fuel IH]; intros a k lastErr result q Hin; [destruct Hin |].
  destruct (request_error method urlStr) as [e |] eqn:Hb.
  - rewrite (loop_unbuildable c x method urlStr bodyBytes e _ _ _ _ _ Hb) in Hin.
    cbn [events prepend finish] in Hin. rewrite app_nil_r in Hin.
    now apply pause_no_do in Hin.
  - destruct (loop_step c x method urlStr bodyBytes Hb fuel a k lastErr result)
      as [(e & r' & El) | (lastErr' & El)];
      rewrite El in Hin; cbn [events prepend finish app] in Hin;
      apply in_app_or in Hin as [Hin | [Hin | Hin]];
      try (now apply pause_no_do in Hin); try (now injection Hin).
    + destruct Hin.
    + exact (IH _ _ _ _ _ Hin).
Qed.

Lemma pause_pos (a : Z) :
  0 < a -> pause c a = [EvSleep (Duration_mul (RetryDelay c) a)].
Proof. intros Ha. unfold pause. now destruct (Z.ltb_spec 0 a); [| lia]. Qed.

Lemma attempts_cons_do (q : Request) (evs : list event) :
  attempts (EvDo q :: evs) = S (attempts evs).
Proof. reflexivity. Qed.

(** Where a network call can sit in the events of an iteration and what
    follows it. *)
Lemma split_at_do (a : Z) (q0 q : Request) (rest pre post : list event) :
  (pause c a ++ EvDo q0 :: rest)%list = (pre ++ EvDo q :: post)%list ->
  pre = pause c a
  \/ exists pre2, pre = (pause c a ++ EvDo q0 :: pre2)%list
                  /\ rest = (pre2 ++ EvDo q :: post)%list.
Proof.
  unfold pause. destruct (0 <? a); cbn [app]; intros E.
  - destruct pre as [| p pre]; cbn [app] in E; [discriminate |].
    injection E as <- E.
    destruct pre as [| p pre]; cbn [app] in E; [now left |].
    injection E as <- E. right. now exists pre.
  - destruct pre as [| p pre]; cbn [app] in E; [now left |].
    injection E as <- E. right. now exists pre.
Qed.

Lemma loop_spacing (fuel : nat) :
  forall (a : Z) (k : nat) (lastErr : option error) (result : option T)
         (pre post : list event) (q : Request),
    0 <= a ->
    events (loop fuel a k lastErr result) = (pre ++ EvDo q :: post)%list ->
    (attempts pre = 0%nat -> pre = pause c a)
    /\ ((0 < attempts pre)%nat ->
        exists pre' q',
          pre = (pre' ++ [EvDo q';
                          EvSleep (Duration_mul (RetryDelay c)
                                     (a + Z.of_nat (attempts pre)))])%list).
Proof.
  induction fuel as [| fuel IH]; intros a k lastErr result pre post q Ha E.
  - destruct pre; discriminate.
  - destruct (request_error method urlStr) as [e |] eqn:Hb.
    + rewrite (loop_unbuildable c x method urlStr bodyBytes e _ _ _ _ _ Hb) in E.
      cbn [events prepend finish] in E. rewrite app_nil_r in E. unfold pause in E.
      destruct (0 <? a); destruct pre as [| ? [| ? ?]]; discriminate.
    + destruct (loop_step c x method urlStr bodyBytes Hb fuel a k lastErr result)
        as [(e & r' & El) | (lastErr' & El)];
        rewrite El in E; cbn [events prepend finish app] in E;
        apply split_at_do in E as [-> | (pre2 & -> & Hrest)];
        try (rewrite attempts_pause; split; [reflexivity | lia]).
      * destruct pre2; discriminate.
      * destruct (IH (a + 1) (S k) lastErr' result pre2 post q) as [Hz Hpos];
          [lia | exact Hrest |].
        rewrite attempts_app, attempts_pause, attempts_cons_do. cbn [Nat.add].
        split; [lia |]. intros _.
        destruct (attempts pre2) as [| n] eqn:En.
        -- rewrite (Hz eq_refl), (pause_pos (a + 1)) by lia.
           exists (pause c a), req. now replace (a + Z.of_nat 1) with (a + 1) by lia.
        -- destruct Hpos as (pre' & q' & Hp); [lia |].
           exists (pause c a ++ EvDo req :: pre')%list, q'.
           rewrite Hp at 1. rewrite <- app_assoc. cbn [app].
           now replace (a + 1 + Z.of_nat (S n)) with (a + Z.of_nat (S (S n))) by lia.
Qed.

(** C1. For every retry ceiling [MaxRetries >= 0], when the request can be
    built and every network call fails at the transport level, both
    executors make exactly [MaxRetries + 1] attempts and return the error of
    the last attempt ("request failed: ...") wrapped with the "max retries
    exceeded" marker; the decode target is not touched. *)
Theorem transport_failure_exhausts_retries (k : nat) (result : option T) :
  0 <= MaxRetries c ->
  request_error method urlStr = None ->
  (forall i q, exists e, Do i q = inl e) ->
  let r := execute c x method urlStr bodyBytes k result in
  Z.of_nat (attempts (events r)) = MaxRetries c + 1
  /\ target r = result
  /\ exists e,
       Do (k + Z.to_nat (MaxRetries c)) req = inl e
       /\ err r = Some (Wrap "max retries exceeded" (Wrap "request failed" e)).
Proof.
  intros Hn Hb Hdown r. subst r. rewrite execute_retry.
  replace (Z.to_nat (MaxRetries c + 1)) with (S (Z.to_nat (MaxRetries c))) by lia.
  destruct (loop_all_fail Hb Hdown (S (Z.to_nat (MaxRetries c))) 0 k None result)
    as (Ha & _ & Ht & He).
  split; [rewrite Ha; lia |]. split; [exact Ht |].
  destruct (Hdown (k + Z.to_nat (MaxRetries c))%nat req) as [e Hd].
  exists e. split; [exact Hd |]. rewrite He, Hd. reflexivity.
Qed.

(** C2. In a call that makes attempt [j] and gets a response there: a
    status in 400-499 other than 429 ends the call with the error of that
    response, attempt [j] being the last; a status in 500-599 or 429
    records the error of that response and, while [j < MaxRetries], the
    next attempt is made (after the last attempt the recorded error is
    returned under the "max retries exceeded" marker). *)
Theorem status_decides_retry (k : nat) (result : option T) (j : nat) (resp : Response) :
  let r := execute c x method urlStr bodyBytes k result in
  (j < attempts (events r))%nat ->
  Do (k + j) req = inr resp ->
  (400 <= StatusCode resp <= 499 /\ StatusCode resp <> 429 ->
   attempts (events r) = S j
   /\ exists e, handleResponse resp result = (Some e, result) /\ err r = Some e)
  /\ (500 <= StatusCode resp <= 599 \/ StatusCode resp = 429 ->
      exists e,
        handleResponse resp result = (Some e, result)
        /\ (Z.of_nat j < MaxRetries c -> (S j < attempts (events r))%nat)
        /\ (Z.of_nat j = MaxRetries c ->
            err r = Some (Wrap "max retries exceeded" e))).
Proof.
  intros r Hj Hd. subst r.
  destruct (execute_reaches k result j Hj)
    as (Hb & fuel' & lastErr' & pre & Hf & Hp & He & Herr & _).
  split.
  - intros [Hs Hn].
    destruct (loop_client_error c x method urlStr bodyBytes Hb fuel' (Z.of_nat j) (k + j)
                lastErr' result resp Hd) as (e & Hh & El);
      [lia | exact Hn |].
    rewrite El in He, Herr. split.
    + rewrite He, attempts_app, Hp, attempts_prepend_do. cbn. lia.
    + now exists e.
  - intros Hs.
    destruct (loop_retryable c x method urlStr bodyBytes Hb fuel' (Z.of_nat j) (k + j)
                lastErr' result resp Hd) as (e & Hh & El);
      [unfold StatusTooManyRequests; lia |].
    rewrite El in He, Herr. exists e. split; [exact Hh |]. split.
    + intros Hlt. destruct fuel' as [| fuel'']; [lia |].
      rewrite He, attempts_app, Hp, attempts_prepend_do.
      destruct (loop_step c x method urlStr bodyBytes Hb fuel'' (Z.of_nat j + 1) (S (k + j))
                  (Some e) result) as [(e' & r' & E2) | (l2 & E2)];
        rewrite E2, attempts_prepend_do; lia.
    + intros Heq. destruct fuel' as [| fuel'']; [| lia].
      rewrite Herr. reflexivity.
Qed.

(** C3. In a call that makes attempt [j] and gets there a response with a
    status in 200-299 whose non-empty body is handed to the JSON decoder
    (the status is not 204 and the caller gave a target) and the decoder
    fails, the decode error is returned at once: attempt [j] is the last
    one, whatever [MaxRetries] is. *)
Theorem decode_failure_is_terminal (k : nat) (t t' : T) (j : nat)
    (resp : Response) (body : bytes) (e : error) :
  let r := execute c x method urlStr bodyBytes k (Some t) in
  (j < attempts (events r))%nat ->
  Do (k + j) req = inr resp ->
  200 <= StatusCode resp <= 299 ->
  StatusCode resp <> StatusNoContent ->
  ReadAll resp = inr body ->
  body <> [] ->
  json_Unmarshal body t = (t', Some e) ->
  attempts (events r) = S j
  /\ err r = Some (Wrap "failed to unmarshal response" e)
  /\ target r = Some t'.
Proof.
  intros r Hj Hd Hs Hn Hr Hne Hu. subst r.
  destruct (execute_reaches k (Some t) j Hj)
    as (Hb & fuel' & lastErr' & pre & Hf & Hp & He & Herr & Ht & _).
  assert (Hh := handleResponse_decode_error resp t t' body e ltac:(lia) Hn Hr Hne Hu).
  rewrite (loop_success_status c x method urlStr bodyBytes Hb fuel' _ _ lastErr' _ _ resp _
             Hd ltac:(lia) Hh) in He, Herr, Ht.
  split; [| split; assumption].
  rewrite He, attempts_app, Hp, attempts_prepend_do. cbn. lia.
Qed.

(** C4. Before the network call of attempt [a] (the call preceded by [a]
    earlier calls) nothing happens when [a = 0], and for [a > 0] the
    event right before it is one suspension of [RetryDelay * a], the Go
    product on [time.Duration], which follows the call of attempt [a - 1];
    that product is the exact product whenever it fits 64 bits. *)
Theorem backoff_is_delay_times_attempt (k : nat) (result : option T)
    (pre post : list event) (q : Request) :
  events (execute c x method urlStr bodyBytes k result) = (pre ++ EvDo q :: post)%list ->
  let a := Z.of_nat (attempts pre) in
  (a = 0 -> pre = [])
  /\ (0 < a ->
      exists pre' q',
        pre = (pre' ++ [EvDo q'; EvSleep (Duration_mul (RetryDelay c) a)])%list)
  /\ (- 2 ^ 63 <= RetryDelay c * a < 2 ^ 63 ->
      Duration_mul (RetryDelay c) a = RetryDelay c * a).
Proof.
  rewrite execute_retry. intros E a.
  destruct (loop_spacing _ 0 k None result pre post q ltac:(lia) E) as [Hz Hpos].
  split; [| split].
  - intros Ha. apply Hz. lia.
  - intros Ha. apply Hpos. lia.
  - intros Hfit. unfold Duration_mul, wrap64.
    rewrite Z.mod_small by lia. lia.
Qed.

End Calls.

Lemma PostRaw_requests {T : Type} `{Transport} `{Decoder T} (c : Config)
    (urlStr : string) (body : bytes) (contentType contentEncoding : string)
    (k : nat) (result : option T) (q : Request) :
  In (EvDo q) (events (PostRaw c urlStr body contentType contentEncoding k result)) ->
  q = requestOf c (Raw contentType contentEncoding) "POST" urlStr body.
Proof.
  unfold PostRaw, executeRawWithRetry, retry.
  apply (loop_requests c (Raw contentType contentEncoding) "POST" urlStr body).
Qed.

Example gzip_request_headers :
  let q := requestOf (Sample.config 3 2000000000) (Raw "application/x-ndjson" "gzip")
             "POST" "https://api.tinybird.co/v0/events?name=ds" [x1f; x8b] in
  Body q = Some [x1f; x8b]
  /\ Header_Get (Headers q) "Content-Type" = "application/x-ndjson"
  /\ Header_Get (Headers q) "Content-Encoding" = "gzip"
  /\ Header_Get (Headers q) "Authorization" = "Bearer secret"
  /\ Header_Get (Headers q) "User-Agent" = "com.nollywood/tinybirdclient/0.2.0".
Proof. repeat split. Qed.

Example bad_request_is_not_sent :
  let r := @execute bytes Sample.unbuildable Sample.braces (Sample.config 3 2000000000)
             Structured "G E T" "https://api.tinybird.co/v0/pipes/top" [] 0 None in
  events r = []
  /\ option_map Error (err r) = Some "failed to create request: invalid method".
Proof. split; reflexivity. Qed.

Example retried_then_refused :
  let net := Sample.scripted [inl (ErrorString "connection reset");
                              Sample.status 503 "503 Service Unavailable" [];
                              Sample.status 404 "404 Not Found" ["n"%byte; "o"%byte]] in
  let r := @execute bytes net Sample.braces (Sample.config 3 2000000000) Structured
             "GET" "https://api.tinybird.co/v0/pipes/top" [] 0 None in
  attempts (events r) = 3%nat
  /\ filter (fun ev => negb (is_do ev)) (events r)
     = [EvSleep 2000000000; EvSleep 4000000000]
  /\ option_map Error (err r) = Some "HTTP 404: 404 Not Found - no".
Proof. repeat split. Qed.

Example huge_delay_wraps : Duration_mul (2 ^ 62) 2 = - 2 ^ 63.
Proof. reflexivity. Qed.

(** C1 on a dead network with two retries: three attempts, then the
    wrapped error. *)
Lemma transport_failure_exhausts_retries_witness :
  let c := Sample.config 2 2000000000 in
  let r := @execute bytes (Sample.scripted []) Sample.braces c Structured
             "GET" "https://api.tinybird.co/v0/pipes/top" [] 0 None in
  Z.of_nat (attempts (events r)) = MaxRetries c + 1
  /\ target r = None
  /\ exists e,
       @Do (Sample.scripted []) (0 + Z.to_nat (MaxRetries c))
         (requestOf c Structured "GET" "https://api.tinybird.co/v0/pipes/top" []) = inl e
       /\ err r = Some (Wrap "max retries exceeded" (Wrap "request failed" e)).
Proof.
  apply (@transport_failure_exhausts_retries bytes (Sample.scripted []) Sample.braces
           (Sample.config 2 2000000000) Structured
           "GET" "https://api.tinybird.co/v0/pipes/top" [] 0%nat None).
  - cbn. lia.
  - reflexivity.
  - intros [| i] q; eexists; reflexivity.
Defined.

(** C2 on a server that answers 503 and then 404: the 404 of the second
    attempt ends the call. *)
Lemma status_decides_retry_witness :
  let net := Sample.scripted [Sample.status 503 "503 Service Unavailable" [];
                              Sample.status 404 "404 Not Found" ["n"%byte; "o"%byte]] in
  let c := Sample.config 3 2000000000 in
  let resp := {| StatusCode := 404; Status := "404 Not Found";
                 ReadAll := inr ["n"%byte; "o"%byte] |} in
  let r := @execute bytes net Sample.braces c (Raw "application/x-ndjson" "")
             "POST" "https://api.tinybird.co/v0/events?name=ds" ["{"%byte; "}"%byte]
             0 (Some []) in
  (400 <= StatusCode resp <= 499 /\ StatusCode resp <> 429 ->
   attempts (events r) = 2%nat
   /\ exists e, @handleResponse bytes Sample.braces resp (Some []) = (Some e, Some [])
                /\ err r = Some e)
  /\ (500 <= StatusCode resp <= 599 \/ StatusCode resp = 429 ->
      exists e,
        @handleResponse bytes Sample.braces resp (Some []) = (Some e, Some [])
        /\ (Z.of_nat 1 < MaxRetries c -> (2 < attempts (events r))%nat)
        /\ (Z.of_nat 1 = MaxRetries c ->
            err r = Some (Wrap "max retries exceeded" e))).
Proof.
  apply (@status_decides_retry bytes
           (Sample.scripted [Sample.status 503 "503 Service Unavailable" [];
                             Sample.status 404 "404 Not Found" ["n"%byte; "o"%byte]])
           Sample.braces (Sample.config 3 2000000000) (Raw "application/x-ndjson" "")
           "POST" "https://api.tinybird.co/v0/events?name=ds" ["{"%byte; "}"%byte]
           0%nat (Some []) 1%nat).
  - vm_compute. lia.
  - reflexivity.
Defined.

(** C3 on a server whose 200 response carries a body the decoder
    refuses: one attempt, although three retries are allowed. *)
Lemma decode_failure_is_terminal_witness :
  let net := Sample.scripted [Sample.status 200 "200 OK" ["<"%byte]] in
  let r := @execute bytes net Sample.braces (Sample.config 3 2000000000) Structured
             "GET" "https://api.tinybird.co/v0/pipes/top" [] 0 (Some []) in
  attempts (events r) = 1%nat
  /\ err r = Some (Wrap "failed to unmarshal response" (ErrorString "invalid character"))
  /\ target r = Some [].
Proof.
  apply (@decode_failure_is_terminal bytes
           (Sample.scripted [Sample.status 200 "200 OK" ["<"%byte]])
           Sample.braces (Sample.config 3 2000000000) Structured
           "GET" "https://api.tinybird.co/v0/pipes/top" [] 0%nat [] [] 0%nat
           {| StatusCode := 200; Status := "200 OK"; ReadAll := inr ["<"%byte] |}
           ["<"%byte] (ErrorString "invalid character")).
  - vm_compute. lia.
  - reflexivity.
  - cbn. lia.
  - discriminate.
  - reflexivity.
  - discriminate.
  - reflexivity.
Defined.

(** C4 on a dead network with a delay of two seconds: the third attempt
    comes right after a suspension of four seconds. *)
Lemma backoff_is_delay_times_attempt_witness :
  let c := Sample.config 2 2000000000 in
  let q := requestOf c Structured "GET" "https://api.tinybird.co/v0/pipes/top" [] in
  let pre := [EvDo q; EvSleep 2000000000; EvDo q; EvSleep 4000000000] in
  let a := Z.of_nat (attempts pre) in
  (a = 0 -> pre = [])
  /\ (0 < a ->
      exists pre' q',
        pre = (pre' ++ [EvDo q'; EvSleep (Duration_mul (RetryDelay c) a)])%list)
  /\ (- 2 ^ 63 <= RetryDelay c * a < 2 ^ 63 ->
      Duration_mul (RetryDelay c) a = RetryDelay c * a).
Proof.
  intros c q pre.
  apply (@backoff_is_delay_times_attempt bytes (Sample.scripted []) Sample.braces
           c Structured "GET" "https://api.tinybird.co/v0/pipes/top" [] 0%nat None
           pre [] q).
  reflexivity.
Defined.

End ExecutorProps.

(* ================================================================== *)
(** * Properties of the query encoder *)

Module EncoderProps.
Import Go Httpclient.

Example escape_reserved :
  QueryEscape "hello world & special=chars" = "hello+world+%26+special%3Dchars".
Proof. reflexivity. Qed.

Example url_over_json :
  @StructToQueryParams Sample.plain
    (Some (VStruct [Sample.field "Name" [("url", "username"); ("json", "name")]
                      (VString "Test")]))
  = "username=Test".
Proof. reflexivity. Qed.

Example slice_expands_in_order :
  @StructToQueryParams Sample.plain
    (Some (VStruct [Sample.field "Tags" [("json", "tags")]
                      (VSlice [VString "golang"; VString "testing"; VString "api"]);
                    Sample.field "Name" [] (VString "Jane");
                    Sample.field "Age" [] (VInt 25);
                    Sample.field "Password" [("json", "-")] (VString "secret")]))
  = "age=25&name=Jane&tags=golang&tags=testing&tags=api".
Proof. reflexivity. Qed.

(** A nested struct is outside the kinds [isZeroValue] knows: it is sent
    even when all its fields are zero. *)
Example nested_struct_is_kept :
  @StructToQueryParams Sample.plain
    (Some (VStruct [Sample.field "Created" [] (VStruct [])]))
  = "created=%7B%7D".
Proof. reflexivity. Qed.

Lemma float_zero_bits (width : Z) : float_is_zero width 0 = true.
Proof. reflexivity. Qed.

Lemma holds_default_isZeroValue (v : value) :
  holds_default v = true -> isZeroValue v = true.
Proof.
  destruct v as [s | b | i | u | u | bits | bits | elems | elems | entries
                 | elem | elem | fields | kind];
    cbn; try discriminate; try (intros E; exact E).
  - intros E. apply String.eqb_eq in E. now subst s.
  - intros E. apply Z.eqb_eq in E. subst bits. apply float_zero_bits.
  - intros E. apply Z.eqb_eq in E. subst bits. apply float_zero_bits.
  - now destruct elems.
Qed.

Section Encoder.
Context `{Formatter}.

Lemma addField_unexported (params : Values) (field : StructField) (v : value) :
  IsExported field = false -> addField params (field, v) = params.
Proof. intros E. unfold addField. now rewrite E. Qed.

Lemma addField_zero (params : Values) (field : StructField) (v : value) :
  isZeroValue v = true -> addField params (field, v) = params.
Proof.
  intros E. unfold addField. rewrite E.
  destruct (negb (IsExported field)); [reflexivity |].
  now destruct (String.eqb (getParamName field) "" || String.eqb (getParamName field) "-").
Qed.

Lemma addField_named (params : Values) (field : StructField) (v : value) (name : string) :
  getParamName field = name -> name = "" \/ name = "-" ->
  addField params (field, v) = params.
Proof.
  intros E Hn. unfold addField. rewrite E.
  destruct (negb (IsExported field)); [reflexivity |].
  now destruct Hn as [-> | ->].
Qed.

Lemma fields_all_skipped (fields : list (StructField * value)) :
  (forall f, In f fields -> forall params, addField params f = params) ->
  forall params, fold_left addField fields params = params.
Proof.
  induction fields as [| f fields IH]; intros Hall params; [reflexivity |].
  cbn [fold_left]. rewrite (Hall f (or_introl eq_refl)).
  apply IH. intros g Hg. apply Hall. now right.
Qed.

(** C7. A struct whose exported fields all hold a default value (the
    empty string, a zero number, [false], a nil pointer, an empty slice)
    encodes to the empty string, passed by value or through a pointer. *)
Theorem zero_struct_encodes_empty (fields : list (StructField * value)) :
  (forall field v, In (field, v) fields -> IsExported field = true ->
                   holds_default v = true) ->
  StructToQueryParams (Some (VStruct fields)) = ""
  /\ StructToQueryParams (Some (VPtr (Some (VStruct fields)))) = "".
Proof.
  intros Hzero.
  assert (E : fold_left addField fields [] = []).
  { apply fields_all_skipped. intros [field v] Hin params.
    destruct (IsExported field) eqn:Hx.
    - apply addField_zero, holds_default_isZeroValue. now apply (Hzero field v).
    - now apply addField_unexported. }
  cbn. rewrite E. split; reflexivity.
Qed.

Lemma fold_addField_app (pre post : list (StructField * value)) (params : Values) :
  fold_left addField (pre ++ post)%list params
  = fold_left addField post (fold_left addField pre params).
Proof. apply fold_left_app. Qed.

Lemma add_values_under (name : string) (l vs : list string) :
  fold_left (fun p val => Values_Add p name val) l [(name, vs)] = [(name, (vs ++ l)%list)].
Proof.
  revert vs. induction l as [| s l IH]; intros vs; cbn [fold_left].
  - now rewrite app_nil_r.
  - cbn [Values_Add]. rewrite String.eqb_refl, IH. now rewrite <- app_assoc.
Qed.

Lemma encode_under (name : string) (l : list string) :
  Values_Encode (fold_left (fun p val => Values_Add p name val) l [])
  = join_amp (map (fun val => QueryEscape name ++ "=" ++ QueryEscape val) l).
Proof.
  destruct l as [| s l]; [reflexivity |].
  cbn [fold_left Values_Add]. rewrite add_values_under.
  unfold Values_Encode. cbn. now rewrite app_nil_r.
Qed.

(** The query string of a struct with one exported, non-zero field: the
    values of the field under its parameter name, or nothing when that
    name is empty or [-]. *)
Lemma lone_field (field : StructField) (v : value) :
  IsExported field = true -> isZeroValue v = false ->
  StructToQueryParams (Some (VStruct [(field, v)]))
  = if String.eqb (getParamName field) "" || String.eqb (getParamName field) "-" then ""
    else join_amp (map (fun val => QueryEscape (getParamName field) ++ "=" ++ QueryEscape val)
                     (fieldToStrings v)).
Proof.
  intros Hx Hz. unfold StructToQueryParams. cbn [fold_left]. unfold addField.
  rewrite Hx, Hz. cbn [negb].
  destruct (String.eqb (getParamName field) "" || String.eqb (getParamName field) "-");
    [reflexivity |].
  apply encode_under.
Qed.

Lemma getParamName_url (field : StructField) :
  Tag_Get (Tag field) "url" <> "" ->
  getParamName field = before_comma (Tag_Get (Tag field) "url").
Proof. intros Hu. unfold getParamName. apply String.eqb_neq in Hu. now rewrite Hu. Qed.

Lemma getParamName_query (field : StructField) :
  Tag_Get (Tag field) "url" = "" -> Tag_Get (Tag field) "query" <> "" ->
  getParamName field = before_comma (Tag_Get (Tag field) "query").
Proof.
  intros Hu Hq. unfold getParamName. apply String.eqb_neq in Hq. now rewrite Hu, Hq.
Qed.

Lemma getParamName_untagged (field : StructField) :
  Tag_Get (Tag field) "url" = "" -> Tag_Get (Tag field) "query" = "" ->
  Tag_Get (Tag field) "json" = "" ->
  getParamName field = ToLower (Name field).
Proof. intros Hu Hq Hj. unfold getParamName. now rewrite Hu, Hq, Hj. Qed.

(** C8. What the encoder puts in the query string for a field.  The
    struct with the one exported, non-zero field [field] encodes to the
    values of the field, escaped, each under the field's parameter name,
    escaped too ([sent name] below; nothing when the name is empty or
    [-]), and that name is: the name in the [url] tag, else the name in the
    [query] tag, whatever the [json] tag says; with no tag at all, the
    field name in lower case ([strings.ToLower]: byte by byte for an ASCII
    name).  Among other fields the field adds its values under that name
    to those collected so far.  A field whose name resolves to [-] is
    left out, wherever it stands in the struct. *)
Theorem tag_priority (field : StructField) (v : value) :
  let alone := StructToQueryParams (Some (VStruct [(field, v)])) in
  let sent name :=
    if String.eqb name "" || String.eqb name "-" then ""
    else join_amp (map (fun val => QueryEscape name ++ "=" ++ QueryEscape val)
                     (fieldToStrings v)) in
  (IsExported field = true -> isZeroValue v = false ->
   (Tag_Get (Tag field) "url" <> "" ->
    alone = sent (before_comma (Tag_Get (Tag field) "url")))
   /\ (Tag_Get (Tag field) "url" = "" -> Tag_Get (Tag field) "query" <> "" ->
       alone = sent (before_comma (Tag_Get (Tag field) "query")))
   /\ (Tag_Get (Tag field) "url" = "" -> Tag_Get (Tag field) "query" = "" ->
       Tag_Get (Tag field) "json" = "" ->
       alone = sent (ToLower (Name field))
       /\ (isASCII (Name field) = true ->
           ToLower (Name field) = ToLowerASCII (Name field)))
   /\ (getParamName field <> "" -> getParamName field <> "-" ->
       forall params,
         addField params (field, v)
         = fold_left (fun p val => Values_Add p (getParamName field) val)
             (fieldToStrings v) params))
  /\ (getParamName field = "-" ->
      forall pre post,
        StructToQueryParams (Some (VStruct (pre ++ (field, v) :: post)%list))
        = StructToQueryParams (Some (VStruct (pre ++ post)%list))).
Proof.
  intros alone sent. subst alone sent. cbv beta. split.
  - intros Hx Hz. rewrite (lone_field field v Hx Hz). split; [| split; [| split]].
    + intros Hu. now rewrite (getParamName_url field Hu).
    + intros Hu Hq. now rewrite (getParamName_query field Hu Hq).
    + intros Hu Hq Hj. rewrite (getParamName_untagged field Hu Hq Hj). split; [reflexivity |].
      intros Hascii. unfold ToLower. now rewrite Hascii.
    + intros Hne Hnd params. unfold addField.
      apply String.eqb_neq in Hne, Hnd. now rewrite Hx, Hz, Hne, Hnd.
  - intros Hd pre post. cbn. rewrite !fold_addField_app. cbn [fold_left].
    now rewrite (addField_named _ field v "-" Hd (or_intror eq_refl)).
Qed.

End Encoder.

(** C7 on a struct with one field of each listed kind, all zero, and an
    unexported field that is not. *)
Lemma zero_struct_encodes_empty_witness :
  let fields :=
    [Sample.field "Name" [] (VString ""); Sample.field "Age" [("json", "age")] (VInt 0);
     Sample.field "Count" [] (VUint 0); Sample.field "Rate" [] (VFloat64 0);
     Sample.field "Flag" [] (VBool false); Sample.field "Next" [] (VPtr None);
     Sample.field "Tags" [("json", "tags")] (VSlice []);
     ({| Name := "age"; PkgPath := "main"; Tag := [] |}, VInt 25)] in
  @StructToQueryParams Sample.plain (Some (VStruct fields)) = ""
  /\ @StructToQueryParams Sample.plain (Some (VPtr (Some (VStruct fields)))) = "".
Proof.
  intros fields.
  apply (@zero_struct_encodes_empty Sample.plain fields).
  intros field v Hin Hx.
  repeat (destruct Hin as [E | Hin];
          [injection E as <- <-; first [reflexivity | discriminate Hx] |]).
  destruct Hin.
Defined.

(** C8 on five structs: a [url] tag beside a [json] tag, a [query] tag
    beside a [json] tag, no tag on an ASCII name and on a name that opens
    with a Latin-1 capital, and a field tagged [-] after a field that is
    sent. *)
Lemma tag_priority_witness :
  @StructToQueryParams Sample.plain
    (Some (VStruct [Sample.field "Name" [("url", "username,omitempty"); ("json", "name")]
                      (VString "Test")]))
  = "username=Test"
  /\ @StructToQueryParams Sample.plain
       (Some (VStruct [Sample.field "Search" [("query", "search_query"); ("json", "query")]
                         (VSlice [VString "go lang"; VString "a&b"])]))
     = "search_query=go+lang&search_query=a%26b"
  /\ @StructToQueryParams Sample.plain
       (Some (VStruct [Sample.field "UserName" [] (VString "Test")]))
     = "username=Test"
  /\ @StructToQueryParams Sample.plain
       (Some (VStruct [Sample.field "Ünit" [] (VString "m")]))
     = "%C3%BCnit=m"
  /\ @StructToQueryParams Sample.plain
       (Some (VStruct [Sample.field "Name" [("json", "name")] (VString "User");
                       Sample.field "Password" [("json", "-")] (VString "secret")]))
     = "name=User".
Proof.
  split; [| split; [| split; [| split]]].
  - destruct (@tag_priority Sample.plain
                {| Name := "Name"; PkgPath := "";
                   Tag := [("url", "username,omitempty"); ("json", "name")] |}
                (VString "Test")) as [Hsent _].
    destruct (Hsent eq_refl eq_refl) as (Hurl & _).
    apply Hurl. discriminate.
  - destruct (@tag_priority Sample.plain
                {| Name := "Search"; PkgPath := "";
                   Tag := [("query", "search_query"); ("json", "query")] |}
                (VSlice [VString "go lang"; VString "a&b"])) as [Hsent _].
    destruct (Hsent eq_refl eq_refl) as (_ & Hquery & _).
    apply Hquery; [reflexivity | discriminate].
  - destruct (@tag_priority Sample.plain
                {| Name := "UserName"; PkgPath := ""; Tag := [] |} (VString "Test"))
      as [Hsent _].
    destruct (Hsent eq_refl eq_refl) as (_ & _ & Hplain & _).
    apply Hplain; reflexivity.
  - destruct (@tag_priority Sample.plain
                {| Name := "Ünit"; PkgPath := ""; Tag := [] |} (VString "m"))
      as [Hsent _].
    destruct (Hsent eq_refl eq_refl) as (_ & _ & Hplain & _).
    apply Hplain; reflexivity.
  - destruct (@tag_priority Sample.plain
                {| Name := "Password"; PkgPath := ""; Tag := [("json", "-")] |}
                (VString "secret")) as [_ Hdash].
    exact (Hdash eq_refl [Sample.field "Name" [("json", "name")] (VString "User")] []).
Defined.

End EncoderProps.

(* ================================================================== *)
(** * Properties of the endpoint operations *)

Module TinybirdProps.
Import Go Tinybird.

Example unsupported_lz4 :
  option_map Error
    (err (@SendEvents Sample.framing (Sample.accepting WriteResponse) Sample.options
            "datasource" ["{"%byte; "}"%byte]
            (Some {| Wait := false; Compress := true;
                     CompressionEncoding := "lz4"; Format := "" |})))
  = Some "unsupported compression encoding: lz4".
Proof. reflexivity. Qed.

Example plain_ingest :
  calls (@SendEvents Sample.framing (Sample.accepting WriteResponse) Sample.options
           "datasource" ["{"%byte; "}"%byte] None)
  = [PostRaw "https://api.tinybird.co/v0/events?name=datasource" ["{"%byte; "}"%byte]
       "application/x-ndjson" ""].
Proof. reflexivity. Qed.

Example analyze_remote_file :
  calls (@Analyze unit (Sample.accepting unit) tt Sample.options
           (Str "https://example.com/data.csv"))
  = [PostRaw "https://api.tinybird.co/v0/analyze?url=https%3A%2F%2Fexample.com%2Fdata.csv"
       [] "" ""].
Proof. reflexivity. Qed.

Lemma join_url (a b c : string) : (a ++ b) ++ c = a ++ b ++ c.
Proof. induction a as [| x a IH]; cbn; [reflexivity | now rewrite IH]. Qed.

(** The URL of the remote analysis, part by part. *)
Lemma analyze_url (c : ClientOptions) (q : string) :
  baseUrl c "analyze" ++ "?url=" ++ q
  = Protocol c ++ "://" ++ Host c ++ "/" ++ ApiVersion c ++ "/analyze?url=" ++ q.
Proof. unfold baseUrl. now rewrite !join_url. Qed.

Lemma upperhex_safe (n : nat) : query_safe (upperhex n) = true.
Proof. do 16 (destruct n as [| n]; [reflexivity |]). reflexivity. Qed.

Lemma unescaped_is_safe (x : ascii) : shouldEscape x = false -> query_safe x = true.
Proof. intros Hx. unfold query_safe. now rewrite Hx. Qed.

(** What [url.QueryEscape] returns holds unreserved characters, [%] and
    [+] only. *)
Lemma QueryEscape_safe (v : string) : string_forall query_safe (QueryEscape v) = true.
Proof.
  induction v as [| x v IH]; [reflexivity |].
  cbn [QueryEscape]. destruct (shouldEscape x) eqn:Hx.
  - destruct (Ascii.eqb x " "); cbn [string_forall].
    + now rewrite IH.
    + now rewrite !upperhex_safe, IH.
  - cbn [string_forall]. now rewrite (unescaped_is_safe x Hx), IH.
Qed.

(** The two digits of an escape, read back. *)
Lemma hex_digits (x : ascii) :
  match unhex (upperhex (nat_of_ascii x / 16)), unhex (upperhex (nat_of_ascii x mod 16)) with
  | Some h, Some l => ascii_of_nat (16 * h + l) = x
  | _, _ => False
  end.
Proof. destruct x as [[] [] [] [] [] [] [] []]; vm_compute; reflexivity. Qed.

Lemma kept_is_literal (x : ascii) :
  shouldEscape x = false -> Ascii.eqb x "%" = false /\ Ascii.eqb x "+" = false.
Proof.
  intros Hx. split.
  - destruct (Ascii.eqb x "%") eqn:Hp; [| reflexivity].
    apply Ascii.eqb_eq in Hp. subst x. discriminate.
  - destruct (Ascii.eqb x "+") eqn:Hp; [| reflexivity].
    apply Ascii.eqb_eq in Hp. subst x. discriminate.
Qed.

(** [url.QueryUnescape] undoes [url.QueryEscape]. *)
Lemma QueryEscape_inverse (v : string) : QueryUnescape (QueryEscape v) = Some v.
Proof.
  induction v as [| x v IH]; [reflexivity |].
  cbn [QueryEscape]. destruct (shouldEscape x) eqn:Hx.
  - destruct (Ascii.eqb x " ") eqn:Hsp.
    + apply Ascii.eqb_eq in Hsp. subst x. cbn. now rewrite IH.
    + cbn [QueryUnescape]. rewrite Ascii.eqb_refl.
      pose proof (hex_digits x) as Hd.
      destruct (unhex (upperhex (nat_of_ascii x / 16))) as [h |]; [| destruct Hd].
      destruct (unhex (upperhex (nat_of_ascii x mod 16))) as [l |]; [| destruct Hd].
      rewrite IH, Hd. reflexivity.
  - cbn [QueryUnescape]. destruct (kept_is_literal x Hx) as [-> ->].
    now rewrite IH.
Qed.

Section Events.
Context `{Compressors} `{HttpClient WriteResponse}.
Variable c : ClientOptions.

(** The one call [SendEvents] makes once the body is ready. *)
Lemma SendEvents_calls (datasourceName : string) (data body : bytes)
    (options : SendEventsOptions) (contentEncoding : string) :
  prepareBody data options = inr (body, contentEncoding) ->
  exists reqUrl contentType,
    calls (SendEvents c datasourceName data (Some options))
    = [PostRaw reqUrl body contentType contentEncoding].
Proof.
  intros Hp. unfold SendEvents. rewrite Hp.
  eexists. eexists.
  match goal with |- context [serve ?a ?r] => destruct (serve a r) as [[e |] response] end;
    reflexivity.
Qed.

(** C5. With [Compress] set and no encoding named, [SendEvents] makes one
    [PostRaw] call whose content encoding is "gzip" and whose body is what
    the gzip writer produced from the payload; a gzip reader gives the
    payload back from it.  The gzip library comes in through two facts:
    writing into a memory buffer does not fail, and reading undoes
    writing. *)
Theorem default_compression_is_gzip (gunzip : bytes -> option bytes)
    (datasourceName : string) (data : bytes) (options : SendEventsOptions) :
  (forall d, exists b, gzip_Writer d = GzipBytes b) ->
  (forall d b, gzip_Writer d = GzipBytes b -> gunzip b = Some d) ->
  Compress options = true ->
  CompressionEncoding options = "" ->
  exists reqUrl body contentType,
    calls (SendEvents c datasourceName data (Some options))
    = [PostRaw reqUrl body contentType "gzip"]
    /\ gzip_Writer data = GzipBytes body
    /\ gunzip body = Some data.
Proof.
  intros Htotal Hround Hc He.
  destruct (Htotal data) as [body Hb].
  assert (Hp : prepareBody data options = inr (body, "gzip")).
  { unfold prepareBody. rewrite Hc, He. cbn. now rewrite Hb. }
  destruct (SendEvents_calls datasourceName data body options "gzip" Hp)
    as (reqUrl & contentType & Hcalls).
  exists reqUrl, body, contentType. repeat split; [exact Hcalls | exact Hb |].
  now apply Hround.
Qed.

(** C6. With [Compress] set and an encoding named that is neither "gzip"
    nor "zstd", [SendEvents] returns the "unsupported compression
    encoding" error and makes no call on the client. *)
Theorem unknown_encoding_is_rejected (datasourceName : string) (data : bytes)
    (options : SendEventsOptions) :
  Compress options = true ->
  CompressionEncoding options <> "" ->
  CompressionEncoding options <> "gzip" ->
  CompressionEncoding options <> "zstd" ->
  SendEvents c datasourceName data (Some options)
  = {| response := None;
       err := Some (ErrorString ("unsupported compression encoding: "
                                 ++ CompressionEncoding options));
       calls := [] |}.
Proof.
  intros Hc He Hg Hz. apply String.eqb_neq in He, Hg, Hz.
  unfold SendEvents, prepareBody. now rewrite Hc, He, Hg, Hz.
Qed.

End Events.

Section Analyze.
Context {AnalyzeResponse : Type} `{HttpClient AnalyzeResponse}.
Variable zero : AnalyzeResponse.
Variable c : ClientOptions.

(** C9. [Analyze] on a string makes one [PostRaw] call to
    [<protocol>://<host>/<version>/analyze?url=<escaped string>] with a nil
    body, no content type and no content encoding.  The escaped string is
    made of unreserved characters, [%] and [+] only, so it cannot end the
    parameter or open another, and [url.QueryUnescape] gives the input
    back from it.  Every request the executor sends for such a call is a
    POST to that URL without a body.  On a byte slice [Analyze] makes one
    [PostMultipart] call to [<protocol>://<host>/<version>/analyze] with
    the bytes as the file [data] of the field [file].  On anything else it
    returns the "unsupported input type" error without a call. *)
Theorem analyze_dispatch :
  (forall v,
      calls (Analyze zero c (Str v))
      = [PostRaw (Protocol c ++ "://" ++ Host c ++ "/" ++ ApiVersion c
                  ++ "/analyze?url=" ++ QueryEscape v) [] "" ""]
      /\ string_forall query_safe (QueryEscape v) = true
      /\ QueryUnescape (QueryEscape v) = Some v
      /\ forall (T : Type) (net : Httpclient.Transport) (dec : Httpclient.Decoder T)
                (cfg : Httpclient.Config) (urlStr : string) (k : nat)
                (result : option T) (q : Httpclient.Request),
           In (Httpclient.EvDo q)
             (Httpclient.events (Httpclient.PostRaw cfg urlStr [] "" "" k result)) ->
           Httpclient.Method q = "POST" /\ Httpclient.URL q = urlStr
           /\ Httpclient.Body q = None)
  /\ (forall v,
        calls (Analyze zero c (Bytes v))
        = [PostMultipart (Protocol c ++ "://" ++ Host c ++ "/" ++ ApiVersion c ++ "/analyze")
             "file" "data" v])
  /\ (forall input,
        (forall v, input <> Str v) -> (forall v, input <> Bytes v) ->
        Analyze zero c input
        = {| response := None;
             err := Some (ErrorString
                            ("unsupported input type: expected []byte or string, got "
                             ++ typeName_of input));
             calls := [] |}).
Proof.
  split; [| split].
  - intros v. split; [| split; [| split]].
    + rewrite <- analyze_url. unfold Analyze.
      match goal with |- context [serve ?a ?r] => destruct (serve a r) as [[e |] response] end;
        reflexivity.
    + apply QueryEscape_safe.
    + apply QueryEscape_inverse.
    + intros T net dec cfg urlStr k result q Hq.
      apply ExecutorProps.PostRaw_requests in Hq. subst q. cbn.
      now destruct (negb (String.eqb (Httpclient.Token cfg) "")).
  - intros v. unfold Analyze.
    match goal with |- context [serve ?a ?r] => destruct (serve a r) as [[e |] response] end;
      reflexivity.
  - intros input Hstr Hbytes. destruct input as [| v | v | typeName]; try reflexivity.
    + now destruct (Hbytes v).
    + now destruct (Hstr v).
Qed.

End Analyze.

(** C5 with the framing codec. *)
Lemma default_compression_is_gzip_witness :
  let options := {| Wait := true; Compress := true;
                    CompressionEncoding := ""; Format := "json" |} in
  exists reqUrl body contentType,
    calls (@SendEvents Sample.framing (Sample.accepting WriteResponse) Sample.options
             "datasource" ["{"%byte; "}"%byte] (Some options))
    = [PostRaw reqUrl body contentType "gzip"]
    /\ @gzip_Writer Sample.framing ["{"%byte; "}"%byte] = GzipBytes body
    /\ Sample.unframe body = Some ["{"%byte; "}"%byte].
Proof.
  intros options.
  apply (@default_compression_is_gzip Sample.framing (Sample.accepting WriteResponse)
           Sample.options Sample.unframe "datasource" ["{"%byte; "}"%byte] options).
  - intros d. eexists. reflexivity.
  - intros d b Hb. injection Hb as <-. reflexivity.
  - reflexivity.
  - reflexivity.
Defined.

(** C6 with the encoding "lz4". *)
Lemma unknown_encoding_is_rejected_witness :
  let options := {| Wait := false; Compress := true;
                    CompressionEncoding := "lz4"; Format := "" |} in
  @SendEvents Sample.framing (Sample.accepting WriteResponse) Sample.options
    "datasource" ["{"%byte; "}"%byte] (Some options)
  = {| response := None;
       err := Some (ErrorString ("unsupported compression encoding: "
                                 ++ CompressionEncoding options));
       calls := [] |}.
Proof.
  intros options.
  apply (@unknown_encoding_is_rejected Sample.framing (Sample.accepting WriteResponse)
           Sample.options "datasource" ["{"%byte; "}"%byte] options);
    discriminate || reflexivity.
Defined.

(** C9 on a remote file whose address holds a space and reserved
    characters, on three bytes of a local file, and on a number. *)
Lemma analyze_dispatch_witness :
  calls (@Analyze unit (Sample.accepting unit) tt Sample.options
           (Str "https://example.com/my data.csv?x=1&y=2"))
  = [PostRaw
       "https://api.tinybird.co/v0/analyze?url=https%3A%2F%2Fexample.com%2Fmy+data.csv%3Fx%3D1%26y%3D2"
       [] "" ""]
  /\ calls (@Analyze unit (Sample.accepting unit) tt Sample.options
              (Bytes ["a"%byte; ","%byte; "b"%byte]))
     = [PostMultipart "https://api.tinybird.co/v0/analyze" "file" "data"
          ["a"%byte; ","%byte; "b"%byte]]
  /\ @Analyze unit (Sample.accepting unit) tt Sample.options (Other "int")
     = {| response := None;
          err := Some (ErrorString
                         "unsupported input type: expected []byte or string, got int");
          calls := [] |}.
Proof.
  destruct (@analyze_dispatch unit (Sample.accepting unit) tt Sample.options)
    as (Hstr & Hbytes & Hother).
  split; [| split].
  - exact (proj1 (Hstr "https://example.com/my data.csv?x=1&y=2")).
  - exact (Hbytes ["a"%byte; ","%byte; "b"%byte]).
  - apply (Hother (Other "int")); discriminate.
Defined.

End TinybirdProps.

(* ================================================================== *)
(** * Further properties of the retry executor *)

Module ExecutorMore.
Import Go Httpclient.

Section Response.
Context {T : Type} `{Decoder T}.

(** What [handleResponse] can leave in the target: the value it found, or
    what the decoder left after running on a non-empty 2xx body. *)
Lemma handleResponse_target (resp : Response) (result : option T) :
  snd (handleResponse resp result) = result
  \/ exists t body,
       result = Some t /\ 200 <= StatusCode resp < 300
       /\ StatusCode resp <> StatusNoContent
       /\ ReadAll resp = inr body /\ body <> []
       /\ snd (handleResponse resp result) = Some (fst (json_Unmarshal body t)).
Proof.
  unfold handleResponse.
  destruct (ReadAll resp) as [e | body] eqn:Hr; [now left |].
  destruct ((200 <=? StatusCode resp) && (StatusCode resp <? 300)) eqn:Hs.
  - destruct result as [t |]; [| now left].
    destruct (negb (StatusCode resp =? StatusNoContent) && (0 <? len body)) eqn:Hd;
      [| now left].
    right. exists t, body.
    apply andb_true_iff in Hs as [Hlo Hhi]. apply andb_true_iff in Hd as [Hn Hb].
    apply Z.leb_le in Hlo. apply Z.ltb_lt in Hhi.
    apply negb_true_iff, Z.eqb_neq in Hn. apply Z.ltb_lt in Hb.
    repeat split; try assumption.
    + intros ->. cbn in Hb. lia.
    + now destruct (json_Unmarshal body t) as [t' [e |]].
  - left. now destruct (0 <? len body).
Qed.

(** A nil error from [handleResponse] means a status in 200-299. *)
Lemma handleResponse_ok_status (resp : Response) (result result' : option T) :
  handleResponse resp result = (None, result') -> 200 <= StatusCode resp < 300.
Proof.
  intros Hh.
  destruct (Z.leb_spec 200 (StatusCode resp)), (Z.ltb_spec (StatusCode resp) 300);
    try lia;
    destruct (ExecutorProps.handleResponse_failure resp result) as [e He];
    try lia; congruence.
Qed.

End Response.

Section Calls.
Context {T : Type} `{Transport} `{Decoder T}.
Variable c : Config.
Variable x : executor.
Variables method urlStr : string.
Variable bodyBytes : bytes.

Local Abbreviation loop := (retryLoop c (headersOf c x bodyBytes) method urlStr bodyBytes).
Local Abbreviation req := (requestOf c x method urlStr bodyBytes).

Lemma loop_bound (fuel : nat) :
  forall (a : Z) (k : nat) (lastErr : option error) (result : option T),
    (attempts (events (loop fuel a k lastErr result)) <= fuel)%nat
    /\ calls (loop fuel a k lastErr result)
       = (k + attempts (events (loop fuel a k lastErr result)))%nat.
Proof.
  induction fuel as [| fuel IH]; intros a k lastErr result.
  - cbn. split; lia.
  - destruct (request_error method urlStr) as [e |] eqn:Hb.
    + rewrite (ExecutorProps.loop_unbuildable c x method urlStr bodyBytes e _ _ _ _ _ Hb).
      cbn [events prepend finish calls]. rewrite app_nil_r, ExecutorProps.attempts_pause.
      split; lia.
    + destruct (ExecutorProps.loop_step c x method urlStr bodyBytes Hb fuel a k lastErr result)
        as [(e & r' & El) | (lastErr' & El)];
        rewrite El, ExecutorProps.attempts_prepend_do; cbn [calls prepend finish events].
      * cbn. split; lia.
      * destruct (IH (a + 1) (S k) lastErr' result) as [Hle Hc]. rewrite Hc. split; lia.
Qed.

(** X1. Whatever the network does, a call makes at most [MaxRetries + 1]
    network calls, and the client's call count advances by exactly the
    number of calls the trace shows. *)
Theorem attempts_are_bounded (k : nat) (result : option T) :
  let r := execute c x method urlStr bodyBytes k result in
  Z.of_nat (attempts (events r)) <= Z.max 0 (MaxRetries c + 1)
  /\ calls r = (k + attempts (events r))%nat.
Proof.
  intros r. subst r. rewrite ExecutorProps.execute_retry.
  destruct (loop_bound (Z.to_nat (MaxRetries c + 1)) 0 k None result) as [Hle Hc].
  split; [lia | exact Hc].
Qed.

(** X2. With a negative [MaxRetries] the loop body never runs: nothing is
    sent, nothing is awaited, and the call fails with the "max retries
    exceeded" marker around the nil error. *)
Theorem negative_retries_send_nothing (k : nat) (result : option T) :
  MaxRetries c < 0 ->
  execute c x method urlStr bodyBytes k result
  = finish (Some (WrapNil "max retries exceeded")) result k.
Proof.
  intros Hneg. rewrite ExecutorProps.execute_retry.
  replace (Z.to_nat (MaxRetries c + 1)) with 0%nat by lia. reflexivity.
Qed.

(** X3. When [http.NewRequestWithContext] refuses the method or the URL,
    the call ends in its first iteration: no network call, no suspension,
    the target untouched, and the error wrapped as "failed to create
    request". *)
Theorem unbuildable_request_is_not_retried (k : nat) (result : option T) (e : error) :
  0 <= MaxRetries c ->
  request_error method urlStr = Some e ->
  execute c x method urlStr bodyBytes k result
  = finish (Some (Wrap "failed to create request" e)) result k.
Proof.
  intros Hn Hb. rewrite ExecutorProps.execute_retry.
  replace (Z.to_nat (MaxRetries c + 1)) with (S (Z.to_nat (MaxRetries c))) by lia.
  now rewrite (ExecutorProps.loop_unbuildable c x method urlStr bodyBytes e _ _ _ _ _ Hb).
Qed.

Lemma loop_ok (fuel : nat) :
  forall (a : Z) (k : nat) (lastErr : option error) (result : option T),
    err (loop fuel a k lastErr result) = None ->
    exists j resp,
      attempts (events (loop fuel a k lastErr result)) = S j
      /\ Do (k + j) req = inr resp
      /\ handleResponse resp result = (None, target (loop fuel a k lastErr result)).
Proof.
  induction fuel as [| fuel IH]; intros a k lastErr result Hok; [discriminate |].
  destruct (request_error method urlStr) as [e |] eqn:Hb.
  { now rewrite (ExecutorProps.loop_unbuildable c x method urlStr bodyBytes e _ _ _ _ _ Hb)
      in Hok. }
  assert (Hnext : forall lastErr',
             loop (S fuel) a k lastErr result
             = prepend (pause c a)
                 (prepend [EvDo req] (loop fuel (a + 1) (S k) lastErr' result)) ->
             exists j resp,
               attempts (events (loop (S fuel) a k lastErr result)) = S j
               /\ Do (k + j) req = inr resp
               /\ handleResponse resp result
                  = (None, target (loop (S fuel) a k lastErr result))).
  { intros lastErr' El. rewrite El in Hok |- *. cbn [err prepend] in Hok.
    destruct (IH _ _ _ _ Hok) as (j & resp & Ha & Hd & Hh).
    exists (S j), resp. rewrite ExecutorProps.attempts_prepend_do, Ha.
    cbn [target prepend]. split; [reflexivity |]. split; [| exact Hh].
    now replace (k + S j)%nat with (S k + j)%nat by lia. }
  destruct (Do k req) as [e | resp] eqn:Hd.
  - apply (Hnext _ (ExecutorProps.loop_transport_error c x method urlStr bodyBytes Hb
                      fuel a k lastErr result e Hd)).
  - destruct (Z.leb_spec 500 (StatusCode resp)) as [Hge | Hlt];
      [| destruct (Z.eqb_spec (StatusCode resp) StatusTooManyRequests) as [Heq | Hne]].
    + destruct (ExecutorProps.loop_retryable c x method urlStr bodyBytes Hb fuel a k
                  lastErr result resp Hd (or_introl Hge)) as (e & _ & El).
      exact (Hnext _ El).
    + destruct (ExecutorProps.loop_retryable c x method urlStr bodyBytes Hb fuel a k
                  lastErr result resp Hd (or_intror Heq)) as (e & _ & El).
      exact (Hnext _ El).
    + rewrite (ExecutorProps.loop_response c x method urlStr bodyBytes Hb _ _ _ _ _ _ Hd)
        in Hok |- *.
      destruct (handleResponse resp result) as [[e |] result'] eqn:Hh.
      * exfalso. revert Hok.
        ExecutorProps.status_cases (StatusCode resp); discriminate.
      * exists 0%nat, resp. rewrite ExecutorProps.attempts_prepend_do, Nat.add_0_r.
        now repeat split.
Qed.

(** X4. A call returns the nil error only when its last network call got
    a response with a status in 200-299 that [handleResponse] accepted; the
    target is then what [handleResponse] left for that response. *)
Theorem success_means_2xx (k : nat) (result : option T) :
  let r := execute c x method urlStr bodyBytes k result in
  err r = None ->
  exists j resp,
    attempts (events r) = S j
    /\ Do (k + j) req = inr resp
    /\ 200 <= StatusCode resp < 300
    /\ handleResponse resp result = (None, target r).
Proof.
  intros r. subst r. rewrite ExecutorProps.execute_retry. intros Hok.
  destruct (loop_ok _ _ _ _ _ Hok) as (j & resp & Ha & Hd & Hh).
  exists j, resp. repeat split; try assumption;
    apply (handleResponse_ok_status resp result _ Hh).
Qed.

(** X5. The first response [handleResponse] accepts ends the call: if the
    call makes attempt [j] and the response there is accepted, the call
    returns nil with the target [handleResponse] left, and attempt [j] is
    the last. *)
Theorem accepted_response_ends_call (k : nat) (result result' : option T)
    (j : nat) (resp : Response) :
  let r := execute c x method urlStr bodyBytes k result in
  (j < attempts (events r))%nat ->
  Do (k + j) req = inr resp ->
  handleResponse resp result = (None, result') ->
  err r = None /\ target r = result' /\ attempts (events r) = S j.
Proof.
  intros r Hj Hd Hh. subst r.
  destruct (ExecutorProps.execute_reaches c x method urlStr bodyBytes k result j Hj)
    as (Hb & fuel' & lastErr' & pre & Hf & Hp & He & Herr & Ht & _).
  rewrite (ExecutorProps.loop_response c x method urlStr bodyBytes Hb _ _ _ _ _ _ Hd), Hh
    in He, Herr, Ht.
  repeat split; try assumption.
  rewrite He, ExecutorProps.attempts_app, Hp, ExecutorProps.attempts_prepend_do.
    cbn. lia.
Qed.

(** X6. Statuses outside the three classes of the retry rule: a response
    with a status below 200 or in 300-399 ends the call with its error,
    like a client error; a status of 600 or more is retried like a server
    error. *)
Theorem other_statuses (k : nat) (result : option T) (j : nat) (resp : Response) :
  let r := execute c x method urlStr bodyBytes k result in
  (j < attempts (events r))%nat ->
  Do (k + j) req = inr resp ->
  (StatusCode resp < 200 \/ 300 <= StatusCode resp < 400 ->
   attempts (events r) = S j
   /\ exists e, handleResponse resp result = (Some e, result) /\ err r = Some e
               /\ target r = result)
  /\ (600 <= StatusCode resp ->
      exists e,
        handleResponse resp result = (Some e, result)
        /\ (Z.of_nat j < MaxRetries c -> (S j < attempts (events r))%nat)
        /\ (Z.of_nat j = MaxRetries c ->
            err r = Some (Wrap "max retries exceeded" e))).
Proof.
  intros r Hj Hd. subst r.
  destruct (ExecutorProps.execute_reaches c x method urlStr bodyBytes k result j Hj)
    as (Hb & fuel' & lastErr' & pre & Hf & Hp & He & Herr & Ht & _).
  split.
  - intros Hs.
    destruct (ExecutorProps.handleResponse_failure resp result) as [e Hh]; [lia |].
    rewrite (ExecutorProps.loop_response c x method urlStr bodyBytes Hb _ _ _ _ _ _ Hd), Hh
      in He, Herr, Ht.
    assert (Hstop :
      (if (400 <=? StatusCode resp) && (StatusCode resp <? 500)
          && negb (StatusCode resp =? StatusTooManyRequests)
       then finish (Some e) result (S (k + j))
       else if (500 <=? StatusCode resp) || (StatusCode resp =? StatusTooManyRequests)
       then loop fuel' (Z.of_nat j + 1) (S (k + j)) (Some e) result
       else finish (Some e) result (S (k + j)))
      = finish (Some e) result (S (k + j)))
      by (ExecutorProps.status_cases (StatusCode resp); reflexivity).
    rewrite Hstop in He, Herr, Ht. split.
    + rewrite He, ExecutorProps.attempts_app, Hp, ExecutorProps.attempts_prepend_do.
    cbn. lia.
    + exists e. now repeat split.
  - intros Hs.
    destruct (ExecutorProps.loop_retryable c x method urlStr bodyBytes Hb fuel' (Z.of_nat j)
                (k + j) lastErr' result resp Hd) as (e & Hh & El); [lia |].
    rewrite El in He, Herr. exists e. split; [exact Hh |]. split.
    + intros Hlt. destruct fuel' as [| fuel'']; [lia |].
      rewrite He, ExecutorProps.attempts_app, Hp, ExecutorProps.attempts_prepend_do.
      destruct (ExecutorProps.loop_step c x method urlStr bodyBytes Hb fuel''
                  (Z.of_nat j + 1) (S (k + j)) (Some e) result)
        as [(e' & r' & E2) | (l2 & E2)];
        rewrite E2, ExecutorProps.attempts_prepend_do; lia.
    + intros Heq. destruct fuel' as [| fuel'']; [| lia].
      rewrite Herr. reflexivity.
Qed.

Lemma slept_app (l1 l2 : list event) : slept (l1 ++ l2) = slept l1 + slept l2.
Proof.
  induction l1 as [| [d | q] l1 IH]; cbn [app slept]; rewrite ?IH; lia.
Qed.

Lemma slept_pause (a : Z) :
  0 <= a -> 0 <= RetryDelay c * a < 2 ^ 63 -> slept (pause c a) = RetryDelay c * a.
Proof.
  intros Ha Hfit. unfold pause. destruct (Z.ltb_spec 0 a) as [Hpos | Hz].
  - cbn [slept]. unfold Duration_mul, wrap64. rewrite Z.mod_small by lia. lia.
  - replace a with 0 by lia. cbn. lia.
Qed.

Lemma loop_slept (fuel : nat) :
  forall (a : Z) (k : nat) (lastErr : option error) (result : option T),
    request_error method urlStr = None ->
    0 <= a -> 0 <= RetryDelay c ->
    RetryDelay c * (a + Z.of_nat fuel - 1) < 2 ^ 63 ->
    let m := Z.of_nat (attempts (events (loop fuel a k lastErr result))) in
    2 * slept (events (loop fuel a k lastErr result))
    = RetryDelay c * m * (2 * a + m - 1).
Proof.
  induction fuel as [| fuel IH]; intros a k lastErr result Hb Ha Hd Hfit m; subst m.
  - cbn. lia.
  - assert (Hhere : 0 <= RetryDelay c * a < 2 ^ 63) by nia.
    destruct (ExecutorProps.loop_step c x method urlStr bodyBytes Hb fuel a k lastErr result)
      as [(e & r' & El) | (lastErr' & El)];
      rewrite El, ExecutorProps.attempts_prepend_do; cbn [events prepend finish];
      rewrite slept_app, (slept_pause a Ha Hhere); cbn [app slept attempts filter length].
    + change (attempts []) with 0%nat. change (Z.of_nat 1) with 1. unfold slept. ring.
    + assert (IHn := IH (a + 1) (S k) lastErr' result Hb ltac:(lia) Hd ltac:(
                          replace (a + 1 + Z.of_nat fuel - 1) with (a + Z.of_nat (S fuel) - 1)
                            by lia; exact Hfit)).
      cbn zeta in IHn.
      set (S' := slept (events (loop fuel (a + 1) (S k) lastErr' result))) in *.
      set (m' := Z.of_nat (attempts (events (loop fuel (a + 1) (S k) lastErr' result)))) in *.
      replace (Z.of_nat (S (attempts (events (loop fuel (a + 1) (S k) lastErr' result)))))
        with (m' + 1) by (subst m'; lia).
      replace (2 * (RetryDelay c * a + S')) with (2 * RetryDelay c * a + 2 * S') by ring.
      rewrite IHn. ring.
Qed.

(** X7. The time a call asks to sleep.  With a non-negative [RetryDelay]
    whose product with [MaxRetries] fits 64 bits, a call that makes [m]
    network calls has asked for [RetryDelay * (1 + 2 + ... + (m - 1))]
    nanoseconds of suspension in all; with X1 this bounds the suspension
    of any call by [RetryDelay * MaxRetries * (MaxRetries + 1) / 2]. *)
Theorem total_backoff (k : nat) (result : option T) :
  0 <= RetryDelay c ->
  RetryDelay c * MaxRetries c < 2 ^ 63 ->
  let r := execute c x method urlStr bodyBytes k result in
  let m := Z.of_nat (attempts (events r)) in
  2 * slept (events r) = RetryDelay c * m * (m - 1).
Proof.
  intros Hd Hfit r m. subst r m. rewrite ExecutorProps.execute_retry.
  destruct (request_error method urlStr) as [e |] eqn:Hb.
  - destruct (Z.to_nat (MaxRetries c + 1)) as [| fuel]; [cbn; lia |].
    rewrite (ExecutorProps.loop_unbuildable c x method urlStr bodyBytes e _ _ _ _ _ Hb).
    cbn. lia.
  - rewrite (loop_slept (Z.to_nat (MaxRetries c + 1)) 0 k None result Hb); [f_equal; lia | lia | lia |].
    destruct (Z.le_gt_cases 0 (MaxRetries c)) as [Hn | Hn].
    + replace (0 + Z.of_nat (Z.to_nat (MaxRetries c + 1)) - 1) with (MaxRetries c) by lia.
      exact Hfit.
    + replace (Z.to_nat (MaxRetries c + 1)) with 0%nat by lia. cbn. nia.
Qed.

(** X8. What every request that reaches the network looks like: the
    method and URL of the call, the body bytes (no body when there are
    none), the configured user agent, a bearer authorization exactly when
    a token is configured; the structured executor declares JSON exactly
    when there is a body and never sets a content encoding, the raw one
    passes on the content type and encoding it was given. *)
Theorem sent_request_shape (k : nat) (result : option T) (q : Request) :
  In (EvDo q) (events (execute c x method urlStr bodyBytes k result)) ->
  Method q = method /\ URL q = urlStr
  /\ Body q = (if 0 <? len bodyBytes then Some bodyBytes else None)
  /\ Header_Get (Headers q) "User-Agent" = UserAgent c
  /\ Header_Get (Headers q) "Authorization"
     = (if String.eqb (Token c) "" then "" else "Bearer " ++ Token c)
  /\ match x with
     | Structured =>
         Header_Get (Headers q) "Content-Type"
         = (if 0 <? len bodyBytes then "application/json" else "")
         /\ Header_Get (Headers q) "Content-Encoding" = ""
     | Raw contentType contentEncoding =>
         Header_Get (Headers q) "Content-Type" = contentType
         /\ Header_Get (Headers q) "Content-Encoding" = contentEncoding
     end.
Proof.
  rewrite ExecutorProps.execute_retry. intros Hin.
  apply (ExecutorProps.loop_requests c x method urlStr bodyBytes) in Hin. subst q.
  unfold requestOf, headersOf.
  destruct x as [| contentType contentEncoding].
  - unfold jsonHeaders.
    destruct (0 <? len bodyBytes); destruct (String.eqb (Token c) ""); cbn;
      repeat split; reflexivity.
  - unfold rawHeaders.
    destruct (String.eqb_spec contentType ""); destruct (String.eqb_spec contentEncoding "");
      destruct (String.eqb (Token c) ""); subst; cbn; repeat split; reflexivity.
Qed.

Lemma loop_target (fuel : nat) :
  forall (a : Z) (k : nat) (lastErr : option error) (result : option T),
    target (loop fuel a k lastErr result) = result
    \/ exists j resp body t,
         result = Some t
         /\ attempts (events (loop fuel a k lastErr result)) = S j
         /\ Do (k + j) req = inr resp
         /\ 200 <= StatusCode resp < 300 /\ StatusCode resp <> StatusNoContent
         /\ ReadAll resp = inr body /\ body <> []
         /\ target (loop fuel a k lastErr result) = Some (fst (json_Unmarshal body t)).
Proof.
  induction fuel as [| fuel IH]; intros a k lastErr result; [now left |].
  destruct (request_error method urlStr) as [e |] eqn:Hb.
  { left. now rewrite (ExecutorProps.loop_unbuildable c x method urlStr bodyBytes e
                         _ _ _ _ _ Hb). }
  assert (Hnext : forall lastErr',
             loop (S fuel) a k lastErr result
             = prepend (pause c a)
                 (prepend [EvDo req] (loop fuel (a + 1) (S k) lastErr' result)) ->
             target (loop (S fuel) a k lastErr result) = result
             \/ exists j resp body t,
                  result = Some t
                  /\ attempts (events (loop (S fuel) a k lastErr result)) = S j
                  /\ Do (k + j) req = inr resp
                  /\ 200 <= StatusCode resp < 300 /\ StatusCode resp <> StatusNoContent
                  /\ ReadAll resp = inr body /\ body <> []
                  /\ target (loop (S fuel) a k lastErr result)
                     = Some (fst (json_Unmarshal body t))).
  { intros lastErr' El. rewrite El. cbn [target prepend].
    destruct (IH (a + 1) (S k) lastErr' result)
      as [Hsame | (j & resp & body & t & Hr & Ha & Hd & Hrest)]; [now left |].
    right. exists (S j), resp, body, t.
    rewrite ExecutorProps.attempts_prepend_do, Ha.
    replace (k + S j)%nat with (S k + j)%nat by lia. now repeat split. }
  destruct (Do k req) as [e | resp] eqn:Hd.
  - apply (Hnext _ (ExecutorProps.loop_transport_error c x method urlStr bodyBytes Hb
                      fuel a k lastErr result e Hd)).
  - destruct (Z.leb_spec 500 (StatusCode resp)) as [Hge | Hlt];
      [| destruct (Z.eqb_spec (StatusCode resp) StatusTooManyRequests) as [Heq | Hne]].
    + destruct (ExecutorProps.loop_retryable c x method urlStr bodyBytes Hb fuel a k
                  lastErr result resp Hd (or_introl Hge)) as (e & _ & El).
      exact (Hnext _ El).
    + destruct (ExecutorProps.loop_retryable c x method urlStr bodyBytes Hb fuel a k
                  lastErr result resp Hd (or_intror Heq)) as (e & _ & El).
      exact (Hnext _ El).
    + rewrite (ExecutorProps.loop_response c x method urlStr bodyBytes Hb _ _ _ _ _ _ Hd).
      rewrite ExecutorProps.attempts_prepend_do.
      assert (Ht := handleResponse_target resp result).
      destruct (handleResponse resp result) as [lastErr' result'] eqn:Hh.
      cbn [snd] in Ht.
      assert (Hfin :
        target (prepend (pause c a) (prepend [EvDo req]
          match lastErr' with
          | None => finish None result' (S k)
          | Some _ =>
              if (400 <=? StatusCode resp) && (StatusCode resp <? 500)
                 && negb (StatusCode resp =? StatusTooManyRequests)
              then finish lastErr' result' (S k)
              else if (500 <=? StatusCode resp)
                      || (StatusCode resp =? StatusTooManyRequests)
              then loop fuel (a + 1) (S k) lastErr' result'
              else finish lastErr' result' (S k)
          end)) = result'
        /\ attempts (events
          match lastErr' with
          | None => finish None result' (S k)
          | Some _ =>
              if (400 <=? StatusCode resp) && (StatusCode resp <? 500)
                 && negb (StatusCode resp =? StatusTooManyRequests)
              then finish lastErr' result' (S k)
              else if (500 <=? StatusCode resp)
                      || (StatusCode resp =? StatusTooManyRequests)
              then loop fuel (a + 1) (S k) lastErr' result'
              else finish lastErr' result' (S k)
          end) = 0%nat).
      { destruct lastErr' as [e |]; [| now split].
        ExecutorProps.status_cases (StatusCode resp); now split. }
      destruct Hfin as [Htgt Hatt]. rewrite Htgt, Hatt.
      destruct Ht as [Hsame | (t & body & Hr & Hs & Hn & Hrd & Hne' & Hdec)]; [now left |].
      right. exists 0%nat, resp, body, t. rewrite Nat.add_0_r. now repeat split.
Qed.

(** X9. The decode target is written at most once and only by the
    decoder: after any call it is either as the caller left it, or what
    [json.Unmarshal] made of it from the non-empty body of a 200-299
    response (other than 204) received on the last attempt.  Transport
    errors, error statuses and unreadable bodies never change it. *)
Theorem target_written_only_by_decoder (k : nat) (result : option T) :
  let r := execute c x method urlStr bodyBytes k result in
  target r = result
  \/ exists j resp body t,
       result = Some t
       /\ attempts (events r) = S j
       /\ Do (k + j) req = inr resp
       /\ 200 <= StatusCode resp < 300 /\ StatusCode resp <> StatusNoContent
       /\ ReadAll resp = inr body /\ body <> []
       /\ target r = Some (fst (json_Unmarshal body t)).
Proof.
  intros r. subst r. rewrite ExecutorProps.execute_retry. apply loop_target.
Qed.

End Calls.

(** X2 with [MaxRetries = -1]. *)
Lemma negative_retries_send_nothing_witness :
  @execute bytes (Sample.scripted []) Sample.braces (Sample.config (-1) 2000000000)
    (Raw "application/x-ndjson" "") "POST" "https://api.tinybird.co/v0/events?name=ds"
    ["{"%byte; "}"%byte] 0 None
  = finish (Some (WrapNil "max retries exceeded")) None 0.
Proof.
  apply (@negative_retries_send_nothing bytes (Sample.scripted []) Sample.braces
           (Sample.config (-1) 2000000000) (Raw "application/x-ndjson" "")
           "POST" "https://api.tinybird.co/v0/events?name=ds" ["{"%byte; "}"%byte]
           0%nat None).
  cbn. lia.
Defined.

(** X3 on a transport that builds no request. *)
Lemma unbuildable_request_is_not_retried_witness :
  @execute bytes Sample.unbuildable Sample.braces (Sample.config 3 2000000000)
    Structured "G E T" "https://api.tinybird.co/v0/pipes/top" [] 0 (Some [])
  = finish (Some (Wrap "failed to create request" (ErrorString "invalid method")))
      (Some []) 0.
Proof.
  apply (@unbuildable_request_is_not_retried bytes Sample.unbuildable Sample.braces
           (Sample.config 3 2000000000) Structured "G E T"
           "https://api.tinybird.co/v0/pipes/top" [] 0%nat (Some [])
           (ErrorString "invalid method")).
  - cbn. lia.
  - reflexivity.
Defined.

(** X4 on a server that answers 503 and then 200. *)
Lemma success_means_2xx_witness :
  let net := Sample.scripted [Sample.status 503 "503 Service Unavailable" [];
                              Sample.status 200 "200 OK" ["{"%byte; "}"%byte]] in
  let c := Sample.config 3 2000000000 in
  let r := @execute bytes net Sample.braces c Structured
             "GET" "https://api.tinybird.co/v0/pipes/top" [] 0 (Some []) in
  exists j resp,
    attempts (events r) = S j
    /\ @Do net (0 + j) (requestOf c Structured "GET" "https://api.tinybird.co/v0/pipes/top" [])
       = inr resp
    /\ 200 <= StatusCode resp < 300
    /\ @handleResponse bytes Sample.braces resp (Some []) = (None, target r).
Proof.
  apply (@success_means_2xx bytes
           (Sample.scripted [Sample.status 503 "503 Service Unavailable" [];
                             Sample.status 200 "200 OK" ["{"%byte; "}"%byte]])
           Sample.braces (Sample.config 3 2000000000) Structured
           "GET" "https://api.tinybird.co/v0/pipes/top" [] 0%nat (Some [])).
  reflexivity.
Defined.

(** X5 on the same server: the 200 of the second attempt ends the call. *)
Lemma accepted_response_ends_call_witness :
  let net := Sample.scripted [Sample.status 503 "503 Service Unavailable" [];
                              Sample.status 200 "200 OK" ["{"%byte; "}"%byte]] in
  let r := @execute bytes net Sample.braces (Sample.config 3 2000000000) Structured
             "GET" "https://api.tinybird.co/v0/pipes/top" [] 0 (Some []) in
  err r = None /\ target r = Some ["{"%byte; "}"%byte] /\ attempts (events r) = 2%nat.
Proof.
  apply (@accepted_response_ends_call bytes
           (Sample.scripted [Sample.status 503 "503 Service Unavailable" [];
                             Sample.status 200 "200 OK" ["{"%byte; "}"%byte]])
           Sample.braces (Sample.config 3 2000000000) Structured
           "GET" "https://api.tinybird.co/v0/pipes/top" [] 0%nat (Some [])
           (Some ["{"%byte; "}"%byte]) 1%nat
           {| StatusCode := 200; Status := "200 OK";
              ReadAll := inr ["{"%byte; "}"%byte] |}).
  - vm_compute. lia.
  - reflexivity.
  - reflexivity.
Defined.

(** X6 on a redirect that reaches the executor. *)
Lemma other_statuses_witness :
  let net := Sample.scripted [Sample.status 302 "302 Found" []] in
  let c := Sample.config 3 2000000000 in
  let resp := {| StatusCode := 302; Status := "302 Found"; ReadAll := inr [] |} in
  let r := @execute bytes net Sample.braces c Structured
             "GET" "https://api.tinybird.co/v0/pipes/top" [] 0 None in
  (StatusCode resp < 200 \/ 300 <= StatusCode resp < 400 ->
   attempts (events r) = 1%nat
   /\ exists e, @handleResponse bytes Sample.braces resp None = (Some e, None)
               /\ err r = Some e /\ target r = None)
  /\ (600 <= StatusCode resp ->
      exists e,
        @handleResponse bytes Sample.braces resp None = (Some e, None)
        /\ (Z.of_nat 0 < MaxRetries c -> (1 < attempts (events r))%nat)
        /\ (Z.of_nat 0 = MaxRetries c ->
            err r = Some (Wrap "max retries exceeded" e))).
Proof.
  apply (@other_statuses bytes (Sample.scripted [Sample.status 302 "302 Found" []])
           Sample.braces (Sample.config 3 2000000000) Structured
           "GET" "https://api.tinybird.co/v0/pipes/top" [] 0%nat None 0%nat).
  - vm_compute. lia.
  - reflexivity.
Defined.

(** X7 on a dead network with two retries and a delay of two seconds:
    2 s and 4 s of suspension. *)
Lemma total_backoff_witness :
  let c := Sample.config 2 2000000000 in
  let r := @execute bytes (Sample.scripted []) Sample.braces c Structured
             "GET" "https://api.tinybird.co/v0/pipes/top" [] 0 None in
  let m := Z.of_nat (attempts (events r)) in
  2 * slept (events r) = RetryDelay c * m * (m - 1).
Proof.
  apply (@total_backoff bytes (Sample.scripted []) Sample.braces
           (Sample.config 2 2000000000) Structured
           "GET" "https://api.tinybird.co/v0/pipes/top" [] 0%nat None).
  - cbn. lia.
  - cbn. lia.
Defined.

(** X8 on the first request of a raw call. *)
Lemma sent_request_shape_witness :
  let c := Sample.config 2 2000000000 in
  let q := requestOf c (Raw "application/x-ndjson" "gzip") "POST"
             "https://api.tinybird.co/v0/events?name=ds" [x1f; x8b] in
  Method q = "POST" /\ URL q = "https://api.tinybird.co/v0/events?name=ds"
  /\ Body q = (if 0 <? len [x1f; x8b] then Some [x1f; x8b] else None)
  /\ Header_Get (Headers q) "User-Agent" = UserAgent c
  /\ Header_Get (Headers q) "Authorization"
     = (if String.eqb (Token c) "" then "" else "Bearer " ++ Token c)
  /\ Header_Get (Headers q) "Content-Type" = "application/x-ndjson"
  /\ Header_Get (Headers q) "Content-Encoding" = "gzip".
Proof.
  intros c q.
  apply (@sent_request_shape bytes (Sample.scripted []) Sample.braces c
           (Raw "application/x-ndjson" "gzip") "POST"
           "https://api.tinybird.co/v0/events?name=ds" [x1f; x8b] 0%nat None q).
  left. reflexivity.
Defined.

End ExecutorMore.

(* ================================================================== *)
(** * Properties of the verbs *)

Module VerbsProps.
Import Go Httpclient.

(** ** The order of the entries in an encoded query *)

Lemma ascii_compare_refl (a : ascii) : Ascii.compare a a = Eq.
Proof. unfold Ascii.compare. apply N.compare_refl. Qed.

Lemma string_compare_refl (s : string) : String.compare s s = Eq.
Proof. induction s as [| a s IH]; [reflexivity |]. cbn. now rewrite ascii_compare_refl. Qed.

Lemma string_compare_lt_trans (s1 : string) :
  forall s2 s3, String.compare s1 s2 = Lt -> String.compare s2 s3 = Lt ->
                String.compare s1 s3 = Lt.
Proof.
  induction s1 as [| a s1 IH]; intros [| b s2] [| d s3]; cbn; try easy.
  unfold Ascii.compare.
  destruct (N.compare_spec (N_of_ascii a) (N_of_ascii b)) as [Hab | Hab | Hab];
    destruct (N.compare_spec (N_of_ascii b) (N_of_ascii d)) as [Hbd | Hbd | Hbd];
    try discriminate; intros H12 H23.
  - rewrite Hab, Hbd, N.compare_refl. now apply (IH s2).
  - rewrite Hab. now apply N.compare_lt_iff in Hbd as ->.
  - rewrite <- Hbd. now apply N.compare_lt_iff in Hab as ->.
  - assert (Had : (N_of_ascii a < N_of_ascii d)%N) by lia.
    now apply N.compare_lt_iff in Had as ->.
Qed.

Local Abbreviation key_lt :=
  (fun e e' : string * list string => String.compare (fst e) (fst e') = Lt).

Lemma insert_sorted_perm (e : string * list string) (v : Values) :
  Permutation (insert_sorted e v) (e :: v).
Proof.
  induction v as [| e' v IH]; cbn; [reflexivity |].
  destruct (String.leb (fst e) (fst e')); [reflexivity |].
  rewrite IH. apply perm_swap.
Qed.

Lemma sorted_entries_perm (v : Values) : Permutation (sorted_entries v) v.
Proof.
  induction v as [| e v IH]; cbn; [reflexivity |].
  rewrite insert_sorted_perm. now constructor.
Qed.

Lemma insert_sorted_sorted (e : string * list string) (v : Values) :
  ~ In (fst e) (map fst v) ->
  StronglySorted key_lt v -> StronglySorted key_lt (insert_sorted e v).
Proof.
  induction v as [| e' v IH]; intros Hfresh Hs; cbn.
  - repeat constructor.
  - apply StronglySorted_inv in Hs as [Hs Hall].
    assert (Hne : fst e <> fst e') by (intros E; apply Hfresh; now left).
    unfold String.leb. destruct (String.compare (fst e) (fst e')) eqn:Hc.
    + now apply String.compare_eq_iff in Hc.
    + constructor; [now constructor |]. constructor; [exact Hc |].
      eapply Forall_impl; [| exact Hall]. intros x Hx. cbn in *.
      now apply (string_compare_lt_trans _ (fst e')).
    + assert (Hlt : String.compare (fst e') (fst e) = Lt)
        by (rewrite String.compare_antisym, Hc; reflexivity).
      constructor.
      * apply IH; [| exact Hs]. intros Hin. apply Hfresh. now right.
      * eapply Permutation_Forall; [symmetry; apply insert_sorted_perm |].
        now constructor.
Qed.

Lemma sorted_entries_sorted (v : Values) :
  NoDup (map fst v) -> StronglySorted key_lt (sorted_entries v).
Proof.
  induction v as [| e v IH]; intros Hnd; cbn; [constructor |].
  inversion Hnd as [| k ks Hfresh Hnd' Heq]; subst.
  apply insert_sorted_sorted; [| now apply IH].
  intros Hin. apply Hfresh.
  eapply Permutation_in; [| exact Hin]. apply Permutation_map, sorted_entries_perm.
Qed.

Lemma sorted_unique (l1 : Values) :
  forall l2, StronglySorted key_lt l1 -> StronglySorted key_lt l2 ->
             Permutation l1 l2 -> l1 = l2.
Proof.
  induction l1 as [| a l1 IH]; intros l2 H1 H2 Hp.
  - now apply Permutation_nil in Hp.
  - destruct l2 as [| b l2]; [now apply Permutation_sym, Permutation_nil in Hp |].
    apply StronglySorted_inv in H1 as [H1 Ha]. apply StronglySorted_inv in H2 as [H2 Hb].
    assert (Hab : a = b).
    { assert (Hina : In a (b :: l2)) by (eapply Permutation_in; [exact Hp | now left]).
      assert (Hinb : In b (a :: l1))
        by (eapply Permutation_in; [symmetry; exact Hp | now left]).
      destruct Hina as [-> | Hina]; [reflexivity |].
      destruct Hinb as [-> | Hinb]; [reflexivity |].
      rewrite Forall_forall in Ha, Hb.
      assert (Hcyc := string_compare_lt_trans _ _ _ (Ha b Hinb) (Hb a Hina)).
      rewrite string_compare_refl in Hcyc. discriminate. }
    subst b. f_equal. apply IH; try assumption.
    now apply Permutation_cons_inv in Hp.
Qed.

Lemma Values_Add_fresh (v : Values) (key value : string) :
  ~ In key (map fst v) -> Values_Add v key value = (v ++ [(key, [value])])%list.
Proof.
  induction v as [| [k vs] v IH]; intros Hfresh; cbn; [reflexivity |].
  destruct (String.eqb_spec k key) as [-> | Hne].
  - exfalso. apply Hfresh. now left.
  - rewrite IH; [reflexivity |]. intros Hin. apply Hfresh. now right.
Qed.

Lemma valuesOf_from (paramsMap : list (string * string)) :
  forall acc : Values,
    NoDup (map fst acc ++ map fst paramsMap) ->
    fold_left (fun values kv => Values_Add values (fst kv) (snd kv)) paramsMap acc
    = (acc ++ map (fun kv => (fst kv, [snd kv])) paramsMap)%list.
Proof.
  induction paramsMap as [| [k x] m IH]; intros acc Hnd; cbn [fold_left map].
  - now rewrite app_nil_r.
  - cbn [fst snd map] in *.
    rewrite Values_Add_fresh.
    + rewrite IH.
      * now rewrite <- app_assoc.
      * rewrite map_app. cbn. rewrite <- app_assoc. exact Hnd.
    + apply NoDup_remove_2 in Hnd. intros Hin. apply Hnd. apply in_or_app. now left.
Qed.

Lemma valuesOf_distinct (paramsMap : list (string * string)) :
  NoDup (map fst paramsMap) ->
  valuesOf paramsMap = map (fun kv => (fst kv, [snd kv])) paramsMap.
Proof. intros Hnd. unfold valuesOf. now rewrite valuesOf_from. Qed.

(** The query string of a map does not depend on the order in which
    [range] visits its entries. *)
Lemma encode_order (m1 m2 : list (string * string)) :
  NoDup (map fst m1) -> Permutation m1 m2 ->
  Values_Encode (valuesOf m1) = Values_Encode (valuesOf m2).
Proof.
  intros Hnd Hp.
  assert (Hnd2 : NoDup (map fst m2))
    by (eapply Permutation_NoDup; [apply Permutation_map; exact Hp | exact Hnd]).
  rewrite !valuesOf_distinct by assumption.
  unfold Values_Encode. f_equal. f_equal.
  apply sorted_unique.
  - apply sorted_entries_sorted. now rewrite map_map.
  - apply sorted_entries_sorted. now rewrite map_map.
  - rewrite !sorted_entries_perm. now apply Permutation_map.
Qed.

(** ** An encoded query is empty only for an empty map *)

Lemma Values_Add_filled (v : Values) (key value : string) :
  Forall (fun e => snd e <> []) v ->
  Values_Add v key value <> [] /\ Forall (fun e => snd e <> []) (Values_Add v key value).
Proof.
  induction v as [| [k vs] v IH]; intros Hall; cbn.
  - split; [discriminate |]. now repeat constructor.
  - apply Forall_cons_iff in Hall as [Hvs Hall].
    destruct (String.eqb k key).
    + split; [discriminate |]. constructor; [| exact Hall].
      cbn. now destruct vs.
    + split; [discriminate |]. constructor; [exact Hvs |]. now apply IH.
Qed.

Lemma valuesOf_filled (paramsMap : list (string * string)) :
  forall acc : Values,
    Forall (fun e => snd e <> []) acc ->
    (acc <> [] \/ paramsMap <> []) ->
    let v := fold_left (fun values kv => Values_Add values (fst kv) (snd kv)) paramsMap acc in
    v <> [] /\ Forall (fun e => snd e <> []) v.
Proof.
  induction paramsMap as [| [k x] m IH]; intros acc Hall Hne; cbn [fold_left].
  - split; [now destruct Hne | exact Hall].
  - destruct (Values_Add_filled acc k x Hall) as [Hn Hf]. apply IH; [exact Hf | now left].
Qed.

Lemma append_nonempty (s t : string) (ch : ascii) : (s ++ String ch t) <> "".
Proof. now destruct s. Qed.

Lemma join_amp_nonempty (p : string) (rest : list string) :
  p <> "" -> join_amp (p :: rest) <> "".
Proof.
  intros Hp. cbn. destruct rest as [| p' rest]; [exact Hp |].
  destruct p; [contradiction | discriminate].
Qed.

Lemma encode_nonempty (paramsMap : list (string * string)) :
  paramsMap <> [] -> Values_Encode (valuesOf paramsMap) <> "".
Proof.
  intros Hne.
  destruct (valuesOf_filled paramsMap [] (Forall_nil _) (or_intror Hne)) as [Hv Hall].
  fold (valuesOf paramsMap) in Hv, Hall.
  assert (Hs : sorted_entries (valuesOf paramsMap) <> []).
  { intros E. apply Hv. apply Permutation_nil.
    rewrite <- E. apply sorted_entries_perm. }
  assert (Hsall : Forall (fun e => snd e <> []) (sorted_entries (valuesOf paramsMap)))
    by (eapply Permutation_Forall; [symmetry; apply sorted_entries_perm | exact Hall]).
  unfold Values_Encode.
  destruct (sorted_entries (valuesOf paramsMap)) as [| [k vs] rest]; [contradiction |].
  apply Forall_cons_iff in Hsall as [Hvs _]. cbn in Hvs.
  destruct vs as [| x vs]; [contradiction |].
  cbn [flat_map map fst snd app]. apply join_amp_nonempty, append_nonempty.
Qed.

Section Verbs.
Context {T : Type} `{Transport} `{Decoder T} `{Formatter} `{URLs} `{Marshaller} `{Multipart}.
Variable c : Config.

Lemma structured_requests (method urlStr : string) (bodyBytes : bytes)
    (k : nat) (result : option T) (q : Request) :
  In (EvDo q) (events (executeWithRetry c method urlStr bodyBytes k result)) ->
  q = requestOf c Structured method urlStr bodyBytes.
Proof. apply (ExecutorProps.loop_requests c Structured method urlStr bodyBytes). Qed.

Lemma raw_requests (method urlStr : string) (bodyBytes : bytes)
    (contentType contentEncoding : string) (k : nat) (result : option T) (q : Request) :
  In (EvDo q)
    (events (executeRawWithRetry c method urlStr bodyBytes contentType contentEncoding
               k result)) ->
  q = requestOf c (Raw contentType contentEncoding) method urlStr bodyBytes.
Proof.
  apply (ExecutorProps.loop_requests c (Raw contentType contentEncoding)
           method urlStr bodyBytes).
Qed.

Lemma prepare_read (method urlStr urlStr' : string) (data : payload) (bodyBytes : bytes) :
  method = "GET" \/ method = "DELETE" ->
  prepareRequest method urlStr data = inr (urlStr', bodyBytes) -> bodyBytes = [].
Proof.
  intros Hm. unfold prepareRequest.
  replace (String.eqb method "GET" || String.eqb method "DELETE") with true
    by (destruct Hm as [-> | ->]; reflexivity).
  destruct data as [| paramsMap | v]; cbv beta iota zeta.
  - now intros [= _ <-].
  - destruct (negb (String.eqb (Values_Encode (valuesOf paramsMap)) ""));
      [destruct (url_Parse urlStr); [discriminate |] |]; now intros [= _ <-].
  - destruct (negb (String.eqb (StructToQueryParams (Some v)) ""));
      [destruct (url_Parse urlStr); [discriminate |] |]; now intros [= _ <-].
Qed.

Lemma prepare_write (method : string) :
  method <> "GET" -> method <> "DELETE" ->
  String.eqb method "GET" || String.eqb method "DELETE" = false.
Proof.
  intros Hg Hd. apply String.eqb_neq in Hg, Hd. now rewrite Hg, Hd.
Qed.

(** X10. A query by [Get] or [Delete] does not depend on the order in
    which Go walks the parameter map: two orders of the same entries give
    the same call, request for request. *)
Theorem query_ignores_map_order (urlStr : string) (m1 m2 : list (string * string))
    (k : nat) (result : option T) :
  NoDup (map fst m1) -> Permutation m1 m2 ->
  Get c urlStr m1 k result = Get c urlStr m2 k result
  /\ Delete c urlStr m1 k result = Delete c urlStr m2 k result.
Proof.
  intros Hnd Hp. unfold Get, Delete, makeRequest, prepareRequest. cbn.
  now rewrite (encode_order m1 m2 Hnd Hp).
Qed.

(** X11. A [GET] or [DELETE] through [makeRequest] never carries a body
    and never declares a content type, whatever data it is given. *)
Theorem reads_have_no_body (method urlStr : string) (data : payload)
    (k : nat) (result : option T) (q : Request) :
  method = "GET" \/ method = "DELETE" ->
  In (EvDo q) (events (makeRequest c method urlStr data k result)) ->
  Method q = method /\ Body q = None /\ Header_Get (Headers q) "Content-Type" = "".
Proof.
  intros Hm. unfold makeRequest.
  destruct (prepareRequest method urlStr data) as [e | [urlStr' bodyBytes]] eqn:Hp;
    [intros [] |].
  apply (prepare_read _ _ _ _ _ Hm) in Hp. subst bodyBytes.
  intros Hin. apply structured_requests in Hin. subst q.
  unfold requestOf, headersOf, jsonHeaders. cbn.
  destruct (negb (String.eqb (Token c) "")); repeat split; reflexivity.
Qed.

Lemma unbuildable_run (method urlStr : string) (bodyBytes : bytes)
    (k : nat) (result : option T) (e : error) :
  request_error method urlStr = Some e ->
  executeWithRetry c method urlStr bodyBytes k result
  = finish (Some (if 0 <=? MaxRetries c then Wrap "failed to create request" e
                  else WrapNil "max retries exceeded")) result k.
Proof.
  intros He.
  change (executeWithRetry c method urlStr bodyBytes k result)
    with (execute c Structured method urlStr bodyBytes k result).
  rewrite ExecutorProps.execute_retry.
  destruct (0 <=? MaxRetries c) eqn:Hr.
  - apply Z.leb_le in Hr.
    destruct (Z.to_nat (MaxRetries c + 1)) as [| fuel] eqn:Hf; [lia |].
    now rewrite (ExecutorProps.loop_unbuildable c Structured method urlStr bodyBytes e
                   fuel 0 k None result He).
  - apply Z.leb_gt in Hr.
    replace (Z.to_nat (MaxRetries c + 1)) with 0%nat by lia. reflexivity.
Qed.

(** X12. A URL that [url.Parse] refuses, and [http.NewRequestWithContext]
    with it, never reaches the network through a [GET] or [DELETE]: the
    call ends before any [Do] and any sleep and leaves the decode target
    alone.  The error depends on the data.  With a query string to add,
    the parse in [makeRequest] fails: "invalid URL".  With nothing to add
    the URL goes to the executor unparsed, and its first
    [http.NewRequestWithContext] fails: "failed to create request" (with a
    negative [MaxRetries] the loop does not run: "max retries exceeded").
    A parameter map has something to add unless it is empty. *)
Theorem unparsable_url_is_never_sent (method urlStr : string) (data : payload)
    (k : nat) (result : option T) (e e' : error) :
  method = "GET" \/ method = "DELETE" ->
  url_Parse urlStr = inl e ->
  request_error method urlStr = Some e' ->
  let query :=
    match data with
    | NoData => ""
    | MapData paramsMap => Values_Encode (valuesOf paramsMap)
    | OtherData v => StructToQueryParams (Some v)
    end in
  makeRequest c method urlStr data k result
  = finish (Some (if negb (String.eqb query "") then Wrap "invalid URL" e
                  else if 0 <=? MaxRetries c then Wrap "failed to create request" e'
                  else WrapNil "max retries exceeded")) result k
  /\ (forall paramsMap, data = MapData paramsMap -> (query = "" <-> paramsMap = [])).
Proof.
  intros Hm Hp Hb query. subst query. split.
  - unfold makeRequest, prepareRequest.
    replace (String.eqb method "GET" || String.eqb method "DELETE") with true
      by (destruct Hm as [-> | ->]; reflexivity).
    destruct data as [| paramsMap | v]; cbv beta iota zeta.
    + apply (unbuildable_run _ _ _ _ _ _ Hb).
    + destruct (negb (String.eqb (Values_Encode (valuesOf paramsMap)) ""));
        [now rewrite Hp | apply (unbuildable_run _ _ _ _ _ _ Hb)].
    + destruct (negb (String.eqb (StructToQueryParams (Some v)) ""));
        [now rewrite Hp | apply (unbuildable_run _ _ _ _ _ _ Hb)].
  - intros paramsMap ->. split.
    + intros Hq. destruct paramsMap as [| kv rest]; [reflexivity |].
      now destruct (encode_nonempty (kv :: rest)).
    + now intros ->.
Qed.

(** X13. With a non-empty parameter map, a [GET] or [DELETE] goes through
    [url.Parse]: a URL it refuses ends the call with "invalid URL" before
    anything is sent; otherwise the encoded parameters become the raw
    query, after the query the URL already had and an ampersand when it
    had one. *)
Theorem query_parameters_need_a_valid_url (method urlStr : string)
    (params : list (string * string)) (k : nat) (result : option T) :
  method = "GET" \/ method = "DELETE" ->
  params <> [] ->
  (forall e, url_Parse urlStr = inl e ->
             makeRequest c method urlStr (MapData params) k result
             = finish (Some (Wrap "invalid URL" e)) result k)
  /\ (forall u, url_Parse urlStr = inr u ->
                makeRequest c method urlStr (MapData params) k result
                = executeWithRetry c method
                    (URL_String
                       (set_RawQuery u
                          (if String.eqb (RawQuery u) ""
                           then Values_Encode (valuesOf params)
                           else RawQuery u ++ "&" ++ Values_Encode (valuesOf params))))
                    [] k result).
Proof.
  intros Hm Hne. unfold makeRequest, prepareRequest.
  replace (String.eqb method "GET" || String.eqb method "DELETE") with true
    by (destruct Hm as [-> | ->]; reflexivity).
  assert (Hq := encode_nonempty params Hne). apply String.eqb_neq in Hq.
  rewrite Hq. cbn [negb]. split.
  - intros e ->. reflexivity.
  - intros u ->. now destruct (String.eqb (RawQuery u) "").
Qed.

(** X14. The verbs with a body ([POST], [PUT], [PATCH], any method other
    than [GET] and [DELETE]): nil data sends no body without asking the
    marshaller; a marshalling error ends the call before anything is
    sent; marshalled bytes go out as the body of every attempt, declared
    as JSON, to the URL as given. *)
Theorem writes_send_marshalled_body (method urlStr : string) (data : payload)
    (k : nat) (result : option T) :
  method <> "GET" -> method <> "DELETE" ->
  (data = NoData ->
   makeRequest c method urlStr data k result
   = executeWithRetry c method urlStr [] k result)
  /\ (data <> NoData -> forall e,
      json_Marshal data = inl e ->
      makeRequest c method urlStr data k result
      = finish (Some (Wrap "failed to marshal request body" e)) result k)
  /\ (data <> NoData -> forall bodyBytes q,
      json_Marshal data = inr bodyBytes -> bodyBytes <> [] ->
      In (EvDo q) (events (makeRequest c method urlStr data k result)) ->
      Method q = method /\ URL q = urlStr /\ Body q = Some bodyBytes
      /\ Header_Get (Headers q) "Content-Type" = "application/json").
Proof.
  intros Hg Hd. unfold makeRequest, prepareRequest.
  rewrite (prepare_write method Hg Hd). split; [| split].
  - now intros ->.
  - intros Hn e He. destruct data; [contradiction | |]; now rewrite He.
  - intros Hn bodyBytes q Hb Hne.
    destruct bodyBytes as [| b0 rest]; [contradiction |].
    assert (Hlen : (0 <? len (b0 :: rest)) = true)
      by (apply Z.ltb_lt; unfold len; cbn [List.length]; lia).
    destruct data as [| m | v]; [contradiction | |]; rewrite Hb; cbv beta iota;
      intros Hin; apply structured_requests in Hin; subst q;
      unfold requestOf, headersOf, jsonHeaders; rewrite Hlen;
      destruct (negb (String.eqb (Token c) "")); repeat split; reflexivity.
Qed.

(** X15. [PostMultipart]: when the multipart writer fails at any of its
    three steps the call ends with that error wrapped and nothing is sent;
    otherwise every attempt is a [POST] to the URL with the form as body,
    the form's content type and no content encoding. *)
Theorem multipart_upload (urlStr fieldName fileName : string) (fileData : bytes)
    (k : nat) (result : option T) :
  (forall e,
      multipart_file fieldName fileName fileData = CreateFormFileFailed e
      \/ multipart_file fieldName fileName fileData = PartWriteFailed e
      \/ multipart_file fieldName fileName fileData = WriterCloseFailed e ->
      events (PostMultipart c urlStr fieldName fileName fileData k result) = []
      /\ target (PostMultipart c urlStr fieldName fileName fileData k result) = result
      /\ exists prefix,
           err (PostMultipart c urlStr fieldName fileName fileData k result)
           = Some (Wrap prefix e))
  /\ (forall body contentType q,
        multipart_file fieldName fileName fileData = Form body contentType ->
        body <> [] ->
        In (EvDo q) (events (PostMultipart c urlStr fieldName fileName fileData k result)) ->
        Method q = "POST" /\ URL q = urlStr /\ Body q = Some body
        /\ Header_Get (Headers q) "Content-Type" = contentType
        /\ Header_Get (Headers q) "Content-Encoding" = "").
Proof.
  unfold PostMultipart. split.
  - intros e [-> | [-> | ->]]; cbn; repeat split; eexists; reflexivity.
  - intros body contentType q -> Hne Hin. apply raw_requests in Hin. subst q.
    unfold requestOf, headersOf, rawHeaders.
    destruct body as [| b0 rest]; [contradiction |].
    replace (0 <? len (b0 :: rest)) with true
      by (symmetry; apply Z.ltb_lt; unfold len; cbn [List.length]; lia).
    destruct (String.eqb_spec contentType ""); destruct (String.eqb (Token c) "");
      subst; cbn; repeat split; reflexivity.
Qed.

End Verbs.

Example get_appends_sorted_query :
  let net := Sample.scripted [Sample.status 204 "204 No Content" []] in
  events (@Get bytes net Sample.braces Sample.plain Fixture.urls Fixture.marshaller
            (Sample.config 3 1)
            "https://api.tinybird.co/v0/pipes/top.json?q=1"
            [("limit", "10"); ("from", "2024-01-01 00:00")] 0 None)
  = [EvDo (requestOf (Sample.config 3 1) Structured "GET"
             "https://api.tinybird.co/v0/pipes/top.json?q=1&from=2024-01-01+00%3A00&limit=10"
             [])].
Proof. reflexivity. Qed.

(** X10 on a map of two entries. *)
Lemma query_ignores_map_order_witness :
  let net := Sample.scripted [] in
  let c := Sample.config 1 1 in
  @Get bytes net Sample.braces Sample.plain Fixture.urls Fixture.marshaller c
    "https://h/p"
    [("limit", "10"); ("from", "a")] 0 None
  = @Get bytes net Sample.braces Sample.plain Fixture.urls Fixture.marshaller c
    "https://h/p"
      [("from", "a"); ("limit", "10")] 0 None
  /\ @Delete bytes net Sample.braces Sample.plain Fixture.urls Fixture.marshaller c
    "https://h/p"
       [("limit", "10"); ("from", "a")] 0 None
     = @Delete bytes net Sample.braces Sample.plain Fixture.urls Fixture.marshaller c
    "https://h/p"
         [("from", "a"); ("limit", "10")] 0 None.
Proof.
  apply (@query_ignores_map_order bytes (Sample.scripted []) Sample.braces Sample.plain
           Fixture.urls Fixture.marshaller (Sample.config 1 1) "https://h/p"
           [("limit", "10"); ("from", "a")] [("from", "a"); ("limit", "10")] 0%nat None).
  - repeat constructor; cbn; intuition discriminate.
  - apply perm_swap.
Defined.

(** X11 on a [DELETE] given a struct. *)
Lemma reads_have_no_body_witness :
  let c := Sample.config 1 1 in
  let q := requestOf c Structured "DELETE" "https://h/p?name=x" [] in
  Method q = "DELETE" /\ Body q = None /\ Header_Get (Headers q) "Content-Type" = "".
Proof.
  intros c q.
  apply (@reads_have_no_body bytes (Sample.scripted []) Sample.braces Sample.plain
           Fixture.urls Fixture.marshaller c "DELETE" "https://h/p"
           (OtherData (VStruct [Sample.field "Name" [] (VString "x")])) 0%nat None q).
  - now right.
  - left. reflexivity.
Defined.

(** X12 on a URL without a scheme, with no parameters and with one. *)
Lemma unparsable_url_is_never_sent_witness :
  @makeRequest bytes Fixture.strict Sample.braces Sample.plain Fixture.urls
    Fixture.marshaller (Sample.config 1 1) "GET" "://h/p" (MapData []) 0 (Some [])
  = finish (Some (Wrap "failed to create request" (ErrorString "missing protocol scheme")))
      (Some []) 0
  /\ @makeRequest bytes Fixture.strict Sample.braces Sample.plain Fixture.urls
       Fixture.marshaller (Sample.config 1 1) "DELETE" "://h/p"
       (MapData [("limit", "10")]) 0 (Some [])
     = finish (Some (Wrap "invalid URL" (ErrorString "missing protocol scheme")))
         (Some []) 0.
Proof.
  split.
  - apply (@unparsable_url_is_never_sent bytes Fixture.strict Sample.braces Sample.plain
             Fixture.urls Fixture.marshaller (Sample.config 1 1) "GET" "://h/p"
             (MapData []) 0%nat (Some [])
             (ErrorString "missing protocol scheme")
             (ErrorString "missing protocol scheme"));
      [now left | reflexivity | reflexivity].
  - apply (@unparsable_url_is_never_sent bytes Fixture.strict Sample.braces Sample.plain
             Fixture.urls Fixture.marshaller (Sample.config 1 1) "DELETE" "://h/p"
             (MapData [("limit", "10")]) 0%nat (Some [])
             (ErrorString "missing protocol scheme")
             (ErrorString "missing protocol scheme"));
      [now right | reflexivity | reflexivity].
Defined.

(** X13 on the same URL with one parameter. *)
Lemma query_parameters_need_a_valid_url_witness :
  @makeRequest bytes (Sample.scripted []) Sample.braces Sample.plain Fixture.urls
    Fixture.marshaller (Sample.config 1 1) "GET" "://h/p" (MapData [("limit", "10")])
    0 None
  = finish (Some (Wrap "invalid URL" (ErrorString "missing protocol scheme"))) None 0.
Proof.
  destruct (@query_parameters_need_a_valid_url bytes (Sample.scripted []) Sample.braces
              Sample.plain Fixture.urls Fixture.marshaller (Sample.config 1 1)
              "GET" "://h/p" [("limit", "10")] 0%nat None) as [Hbad _].
  - now left.
  - discriminate.
  - apply Hbad. reflexivity.
Defined.

(** X14 on a [POST] of a value the marshaller refuses. *)
Lemma writes_send_marshalled_body_witness :
  @makeRequest bytes (Sample.scripted []) Sample.braces Sample.plain Fixture.urls
    Fixture.marshaller (Sample.config 1 1) "POST" "https://h/p"
    (OtherData (VOther "chan int")) 0 None
  = finish (Some (Wrap "failed to marshal request body"
                    (ErrorString "json: unsupported type: chan int"))) None 0.
Proof.
  destruct (@writes_send_marshalled_body bytes (Sample.scripted []) Sample.braces
              Sample.plain Fixture.urls Fixture.marshaller (Sample.config 1 1)
              "POST" "https://h/p" (OtherData (VOther "chan int")) 0%nat None)
    as (_ & Hfail & _).
  - discriminate.
  - discriminate.
  - apply Hfail; [discriminate | reflexivity].
Defined.

(** X15 on a small file. *)
Lemma multipart_upload_witness :
  let c := Sample.config 1 1 in
  let form := (list_byte_of_string "--b; name=file; filename=data;" ++ ["a"%byte])%list in
  let q := requestOf c (Raw "multipart/form-data; boundary=b" "") "POST"
             "https://h/v0/analyze" form in
  Method q = "POST" /\ URL q = "https://h/v0/analyze" /\ Body q = Some form
  /\ Header_Get (Headers q) "Content-Type" = "multipart/form-data; boundary=b"
  /\ Header_Get (Headers q) "Content-Encoding" = "".
Proof.
  intros c form q.
  destruct (@multipart_upload bytes (Sample.scripted []) Sample.braces Fixture.multipart
              c "https://h/v0/analyze" "file" "data" ["a"%byte] 0%nat None)
    as [_ Hform].
  apply (Hform form "multipart/form-data; boundary=b" q).
  - reflexivity.
  - discriminate.
  - left. reflexivity.
Defined.

End VerbsProps.

(* ================================================================== *)
(** * Further properties of the query encoder *)

Module EncoderMore.
Import Go Httpclient.

Section Encoder.
Context `{Formatter}.

Lemma fieldToStrings_strings (l : list string) :
  fieldToStrings (VSlice (map VString l)) = l.
Proof.
  cbn. induction l as [| s l IH]; [reflexivity |]. cbn. now rewrite IH.
Qed.

Lemma add_all_same_key (name : string) (l vs : list string) :
  fold_left (fun p val => Values_Add p name val) l [(name, vs)] = [(name, (vs ++ l)%list)].
Proof.
  revert vs. induction l as [| s l IH]; intros vs; cbn [fold_left].
  - now rewrite app_nil_r.
  - cbn [Values_Add]. rewrite String.eqb_refl, IH. now rewrite <- app_assoc.
Qed.

Lemma encode_single (name : string) (l : list string) :
  Values_Encode [(name, l)]
  = join_amp (map (fun val => QueryEscape name ++ "=" ++ QueryEscape val) l).
Proof. unfold Values_Encode. cbn. now rewrite app_nil_r. Qed.

Lemma addField_not_sent (params : Values) (f : StructField * value) :
  is_sent f = false -> addField params f = params.
Proof.
  destruct f as [field v]. unfold is_sent, addField. cbn [fst snd].
  destruct (IsExported field); [| reflexivity]. cbn [negb andb].
  destruct (String.eqb (getParamName field) "" || String.eqb (getParamName field) "-");
    [reflexivity |].
  cbn [negb andb]. now destruct (isZeroValue v).
Qed.

(** X16. A field holding a slice of strings becomes one parameter per
    element, all under the field's name, in the order of the slice. *)
Theorem slice_field_in_order (field : StructField) (l : list string) :
  IsExported field = true ->
  getParamName field <> "" -> getParamName field <> "-" ->
  l <> [] ->
  StructToQueryParams (Some (VStruct [(field, VSlice (map VString l))]))
  = join_amp (map (fun val => QueryEscape (getParamName field) ++ "=" ++ QueryEscape val) l).
Proof.
  intros Hx Hne Hnd Hl. apply String.eqb_neq in Hne, Hnd.
  unfold StructToQueryParams. cbn [fold_left]. unfold addField.
  rewrite Hx, Hne, Hnd. cbn [negb orb].
  destruct l as [| s l]; [contradiction |].
  replace (isZeroValue (VSlice (map VString (s :: l)))) with false by reflexivity.
  rewrite fieldToStrings_strings. cbn [fold_left Values_Add].
  rewrite add_all_same_key. apply encode_single.
Qed.

(** X17. Only the fields that are exported, have a parameter name other
    than the empty string and [-], and hold a non-zero value take part in
    the encoding: dropping all the others from the struct gives the same
    query string. *)
Theorem only_sent_fields_matter (fields : list (StructField * value)) :
  StructToQueryParams (Some (VStruct fields))
  = StructToQueryParams (Some (VStruct (filter is_sent fields))).
Proof.
  unfold StructToQueryParams. f_equal.
  generalize (@nil (string * list string)).
  induction fields as [| f fields IH]; intros params; [reflexivity |].
  cbn [fold_left filter]. destruct (is_sent f) eqn:Hs.
  - cbn [fold_left]. apply IH.
  - rewrite (addField_not_sent params f Hs). apply IH.
Qed.

(** X18. A zero value is left out when the field holds it directly, and
    sent when the field holds a pointer to it: a pointer field is the way
    to put a zero in the query. *)
Theorem pointer_field_sends_zero (field : StructField) (v : value) (s : string) :
  IsExported field = true ->
  getParamName field <> "" -> getParamName field <> "-" ->
  isZeroValue v = true ->
  fieldToStrings v = [s] ->
  StructToQueryParams (Some (VStruct [(field, v)])) = ""
  /\ StructToQueryParams (Some (VStruct [(field, VPtr (Some v))]))
     = QueryEscape (getParamName field) ++ "=" ++ QueryEscape s.
Proof.
  intros Hx Hne Hnd Hz Hs. apply String.eqb_neq in Hne, Hnd.
  unfold StructToQueryParams. cbn [fold_left]. unfold addField.
  rewrite Hx, Hne, Hnd, Hz. cbn [negb orb isZeroValue]. split; [reflexivity |].
  cbn [fieldToStrings]. rewrite Hs. cbn [fold_left Values_Add].
  rewrite encode_single. reflexivity.
Qed.

End Encoder.

(** X16 on the tags of an event. *)
Lemma slice_field_in_order_witness :
  let field := {| Name := "Tags"; PkgPath := ""; Tag := [("json", "tags,omitempty")] |} in
  @StructToQueryParams Sample.plain
    (Some (VStruct [(field, VSlice (map VString ["go lang"; "api"]))]))
  = join_amp (map (fun val => QueryEscape (@getParamName Sample.plain field) ++ "="
                                ++ QueryEscape val)
                ["go lang"; "api"]).
Proof.
  intros field.
  apply (@slice_field_in_order Sample.plain field ["go lang"; "api"]);
    reflexivity || discriminate.
Defined.

(** X18 on a pointer to the integer 0. *)
Lemma pointer_field_sends_zero_witness :
  let field := {| Name := "Offset"; PkgPath := ""; Tag := [] |} in
  @StructToQueryParams Sample.plain (Some (VStruct [(field, VInt 0)])) = ""
  /\ @StructToQueryParams Sample.plain (Some (VStruct [(field, VPtr (Some (VInt 0)))]))
     = QueryEscape (@getParamName Sample.plain field) ++ "=" ++ QueryEscape "0".
Proof.
  intros field.
  apply (@pointer_field_sends_zero Sample.plain field (VInt 0) "0");
    reflexivity || discriminate.
Defined.

End EncoderMore.

(* ================================================================== *)
(** * Further properties of the endpoint operations and the options *)

Module TinybirdMore.
Import Go Tinybird.

Lemma append_assoc (s1 s2 s3 : string) : (s1 ++ s2) ++ s3 = s1 ++ s2 ++ s3.
Proof. induction s1 as [| ch s1 IH]; [reflexivity |]. cbn. now rewrite IH. Qed.

Lemma append_empty (s : string) : s ++ "" = s.
Proof. induction s as [| ch s IH]; [reflexivity |]. cbn. now rewrite IH. Qed.

Ltac outcome_without_call :=
  cbn [calls response err List.length];
  split; [lia | split; [split; [intros _; discriminate | reflexivity] | intros ? [=]]].

Ltac outcome_with_call Hs :=
  cbn [calls response err List.length];
  split; [lia |];
  split; [split; [try discriminate; reflexivity
                 | try reflexivity; intros Hc; now contradiction Hc] |];
  intros ? [= <-]; rewrite Hs; cbn [fst snd];
  split; [reflexivity | try discriminate; intros _; reflexivity].

Section Events.
Context `{Compressors} `{HttpClient WriteResponse}.
Variable c : ClientOptions.

(** X19. Ingest without compression: the payload goes out byte for byte
    in one [PostRaw] call with no content encoding, to
    [<base>/events?name=<escaped name>] followed by [&wait=true] when
    [Wait] is set and by [&format=<escaped format>] when a format is
    named, as JSON for the format "json" and as NDJSON otherwise; nil
    options behave as options with every field zero. *)
Theorem uncompressed_ingest (datasourceName : string) (data : bytes)
    (options : SendEventsOptions) :
  Compress options = false ->
  calls (SendEvents c datasourceName data (Some options))
  = [PostRaw
       (baseUrl c "events" ++ "?name=" ++ QueryEscape datasourceName
        ++ (if Wait options then "&wait=true" else "")
        ++ (if String.eqb (Format options) "" then ""
            else "&format=" ++ QueryEscape (Format options)))
       data
       (if String.eqb (Format options) "json" then "application/json"
        else "application/x-ndjson")
       ""]
  /\ SendEvents c datasourceName data None
     = SendEvents c datasourceName data
         (Some {| Wait := false; Compress := false; CompressionEncoding := "";
                  Format := "" |}).
Proof.
  intros Hc. split; [| reflexivity].
  unfold SendEvents, prepareBody. rewrite Hc.
  match goal with |- context [serve ?a ?r] => destruct (serve a r) as [[e |] response] end;
    cbn [calls]; destruct (Wait options); destruct (String.eqb (Format options) "");
    cbn [negb]; rewrite ?append_assoc, ?append_empty; reflexivity.
Qed.

(** X20. Naming "gzip" is the same as naming nothing, and "zstd" sends
    what the zstd encoder makes of the payload under the content encoding
    "zstd", unless the encoder cannot be created, in which case nothing is
    sent. *)
Theorem named_encodings (datasourceName : string) (data : bytes)
    (wait : bool) (format : string) :
  SendEvents c datasourceName data
    (Some {| Wait := wait; Compress := true; CompressionEncoding := "gzip";
             Format := format |})
  = SendEvents c datasourceName data
      (Some {| Wait := wait; Compress := true; CompressionEncoding := "";
               Format := format |})
  /\ (zstd_NewWriter = None ->
      exists reqUrl contentType,
        calls (SendEvents c datasourceName data
                 (Some {| Wait := wait; Compress := true; CompressionEncoding := "zstd";
                          Format := format |}))
        = [PostRaw reqUrl (zstd_EncodeAll data) contentType "zstd"])
  /\ (forall e, zstd_NewWriter = Some e ->
      SendEvents c datasourceName data
        (Some {| Wait := wait; Compress := true; CompressionEncoding := "zstd";
                 Format := format |})
      = {| response := None; err := Some (Wrap "failed to create zstd encoder" e);
           calls := [] |}).
Proof.
  split; [reflexivity |]. split.
  - intros Hz. unfold SendEvents, prepareBody. cbn. rewrite Hz.
    eexists. eexists.
    match goal with |- context [serve ?a ?r] => destruct (serve a r) as [[e |] response] end;
      reflexivity.
  - intros e Hz. unfold SendEvents, prepareBody. cbn. now rewrite Hz.
Qed.

(** X21. When the gzip writer fails, on writing or on closing, nothing is
    sent: the call returns that error wrapped and no response. *)
Theorem gzip_failure_sends_nothing (datasourceName : string) (data : bytes)
    (options : SendEventsOptions) (e : error) :
  Compress options = true ->
  CompressionEncoding options = "" \/ CompressionEncoding options = "gzip" ->
  gzip_Writer data = GzipWriteFailed e \/ gzip_Writer data = GzipCloseFailed e ->
  calls (SendEvents c datasourceName data (Some options)) = []
  /\ response (SendEvents c datasourceName data (Some options)) = None
  /\ exists prefix,
       err (SendEvents c datasourceName data (Some options)) = Some (Wrap prefix e).
Proof.
  intros Hc He Hg. unfold SendEvents, prepareBody. rewrite Hc.
  replace (if String.eqb (CompressionEncoding options) "" then "gzip"
           else CompressionEncoding options) with "gzip"
    by (destruct He as [-> | ->]; reflexivity).
  cbn. destruct Hg as [-> | ->]; repeat split; eexists; reflexivity.
Qed.

(** X22. What [SendEvents] hands back, in every case: it calls the client
    at most once; it returns a response exactly when it returns no error;
    an error of the client comes back as it is, and what the client had
    written into the response is dropped; on success the response is the
    one the client filled. *)
Theorem ingest_outcome (datasourceName : string) (data : bytes)
    (options : option SendEventsOptions) :
  let r := SendEvents c datasourceName data options in
  (List.length (calls r) <= 1)%nat
  /\ (response r = None <-> err r <> None)
  /\ forall post, calls r = [post] ->
       err r = fst (serve post {| SuccessfulRows := 0; QuarantinedRows := 0 |})
       /\ (err r = None ->
           response r = Some (snd (serve post {| SuccessfulRows := 0;
                                                 QuarantinedRows := 0 |}))).
Proof.
  intros r. subst r. unfold SendEvents.
  match goal with |- context [prepareBody ?d ?o] => destruct (prepareBody d o) as [e | [b enc]] end.
  - outcome_without_call.
  - match goal with |- context [serve ?a ?r] =>
      generalize a; intros p; destruct (serve p r) as [[e |] res] eqn:Hs end;
      outcome_with_call Hs.
Qed.

End Events.

Section Analyze.
Context {AnalyzeResponse : Type} `{HttpClient AnalyzeResponse}.
Variable zero : AnalyzeResponse.
Variable c : ClientOptions.

(** X23. What [Analyze] hands back, in every case: at most one call on
    the client; a response exactly when there is no error; an error of
    the client comes back as it is and the response is withheld; on
    success the response is the one the client filled. *)
Theorem analyze_outcome (input : any) :
  let r := Analyze zero c input in
  (List.length (calls r) <= 1)%nat
  /\ (response r = None <-> err r <> None)
  /\ forall request, calls r = [request] ->
       err r = fst (serve request zero)
       /\ (err r = None -> response r = Some (snd (serve request zero))).
Proof.
  intros r. subst r. unfold Analyze.
  destruct input as [| v | v | typeName]; try outcome_without_call;
    match goal with |- context [serve ?a ?r] =>
      generalize a; intros p; destruct (serve p r) as [[e |] res] eqn:Hs end;
    outcome_with_call Hs.
Qed.

End Analyze.

Section Endpoint.
Context {EndpointResponse R : Type} `{QueryClient EndpointResponse}.
Variable zero : EndpointResponse.
Variable c : ClientOptions.

(** X24. [CallEndpoint] makes one [Get] call to [<base>/pipes/<name>],
    the name as given, not escaped, with the parameters as given; it
    returns the client's error; and whatever the client decoded, the value
    the caller's [result] points to is left as it was, also on success. *)
Theorem pipe_query (endpointName : string) (params : list (string * string)) (result : R) :
  let r := CallEndpoint zero c endpointName params result in
  gets r = [(Protocol c ++ "://" ++ Host c ++ "/" ++ ApiVersion c ++ "/pipes/"
             ++ endpointName, params)]
  /\ query_err r
     = fst (serve_get (baseUrl c "pipes" ++ "/" ++ endpointName) params zero)
  /\ caller_result r = result.
Proof.
  intros r. subst r. unfold CallEndpoint, baseUrl.
  match goal with |- context [serve_get ?u ?p ?z] =>
    destruct (serve_get u p z) as [[e |] res] end;
    cbn [gets query_err caller_result fst];
    rewrite !append_assoc; repeat split; reflexivity.
Qed.

End Endpoint.

Section Options.
Context `{Env}.

(** [NewClientOptions] without options gives [DefaultClientOptions]. *)
Lemma no_options_are_the_defaults : NewClientOptions [] = DefaultClientOptions.
Proof. reflexivity. Qed.

(** X25. Whatever options are passed, [NewClientOptions] returns a
    non-empty host, API version and protocol and a non-zero timeout, retry
    count and retry delay: in particular it cannot turn retries off. *)
Theorem options_are_never_zero (options : list Option) :
  let co := NewClientOptions options in
  Host co <> "" /\ ApiVersion co <> "" /\ Protocol co <> ""
  /\ Timeout co <> 0 /\ MaxRetries co <> 0 /\ RetryDelay co <> 0.
Proof.
  intros co. subst co. unfold NewClientOptions.
  match goal with |- context [fold_left ?f ?l ?z] => generalize (fold_left f l z) end.
  intros acc. cbn.
  destruct (String.eqb_spec (Host acc) ""), (String.eqb_spec (ApiVersion acc) ""),
    (String.eqb_spec (Protocol acc) ""), (Z.eqb_spec (Timeout acc) 0),
    (Z.eqb_spec (MaxRetries acc) 0), (Z.eqb_spec (RetryDelay acc) 0);
    repeat split; try assumption; try discriminate; unfold Second; lia.
Qed.



(** X27. When no host is given (no option leaves a non-empty [Host]),
    the default host, which already carries a scheme, is used, and the URL
    template puts the protocol in front of it once more: every endpoint
    URL then reads [<protocol>://https://api.tinybird.co/<version>/...]. *)
Theorem default_host_repeats_the_scheme (options : list Option) (path : string) :
  Host (fold_left (fun co option => option co) options
          {| Host := ""; Token := ""; Timeout := 0; ApiVersion := "";
             Protocol := ""; MaxRetries := 0; RetryDelay := 0 |}) = "" ->
  baseUrl (NewClientOptions options) path
  = Protocol (NewClientOptions options) ++ "://https://api.tinybird.co/"
    ++ ApiVersion (NewClientOptions options) ++ "/" ++ path.
Proof.
  intros Hh. unfold baseUrl, NewClientOptions. cbn [Host Protocol ApiVersion].
  rewrite Hh. reflexivity.
Qed.

End Options.

(** X19 on options that ask for an acknowledgement and the JSON format. *)
Lemma uncompressed_ingest_witness :
  let options := {| Wait := true; Compress := false; CompressionEncoding := "zstd";
                    Format := "json" |} in
  calls (@SendEvents Sample.framing (Sample.accepting WriteResponse) Sample.options
           "my events" ["{"%byte; "}"%byte] (Some options))
  = [PostRaw "https://api.tinybird.co/v0/events?name=my+events&wait=true&format=json"
       ["{"%byte; "}"%byte] "application/json" ""]
  /\ @SendEvents Sample.framing (Sample.accepting WriteResponse) Sample.options
       "my events" ["{"%byte; "}"%byte] None
     = @SendEvents Sample.framing (Sample.accepting WriteResponse) Sample.options
         "my events" ["{"%byte; "}"%byte]
         (Some {| Wait := false; Compress := false; CompressionEncoding := "";
                  Format := "" |}).
Proof.
  intros options.
  apply (@uncompressed_ingest Sample.framing (Sample.accepting WriteResponse)
           Sample.options "my events" ["{"%byte; "}"%byte] options).
  reflexivity.
Defined.

(** X20 with the framing codec. *)
Lemma named_encodings_witness :
  exists reqUrl contentType,
    calls (@SendEvents Sample.framing (Sample.accepting WriteResponse) Sample.options
             "ds" ["{"%byte] (Some {| Wait := false; Compress := true;
                                      CompressionEncoding := "zstd"; Format := "" |}))
    = [PostRaw reqUrl (@zstd_EncodeAll Sample.framing ["{"%byte]) contentType "zstd"].
Proof.
  destruct (@named_encodings Sample.framing (Sample.accepting WriteResponse) Sample.options
              "ds" ["{"%byte] false "") as (_ & Hz & _).
  apply Hz. reflexivity.
Defined.


(** X21 with a gzip writer that cannot close. *)
Lemma gzip_failure_sends_nothing_witness :
  let options := {| Wait := false; Compress := true; CompressionEncoding := "gzip";
                    Format := "" |} in
  let r := @SendEvents Fixture.broken (Sample.accepting WriteResponse) Sample.options
             "ds" ["{"%byte] (Some options) in
  calls r = [] /\ response r = None
  /\ exists prefix, err r = Some (Wrap prefix (ErrorString "short write")).
Proof.
  intros options.
  apply (@gzip_failure_sends_nothing Fixture.broken (Sample.accepting WriteResponse)
           Sample.options "ds" ["{"%byte] options (ErrorString "short write")).
  - reflexivity.
  - now right.
  - now right.
Defined.

(** X22 with a client that writes a response and then fails. *)
Lemma ingest_outcome_witness :
  let r := @SendEvents Sample.framing
             (Fixture.failing WriteResponse {| SuccessfulRows := 5; QuarantinedRows := 1 |})
             Sample.options "ds" ["{"%byte] None in
  err r = Some (ErrorString "HTTP 403: 403 Forbidden") /\ response r = None.
Proof.
  intros r.
  destruct (@ingest_outcome Sample.framing
              (Fixture.failing WriteResponse {| SuccessfulRows := 5; QuarantinedRows := 1 |})
              Sample.options "ds" ["{"%byte] None) as (_ & Hiff & Hcall).
  destruct (Hcall _ eq_refl) as [Herr _].
  split; [exact Herr |]. apply Hiff. intros Hnone.
  rewrite Hnone in Herr. discriminate Herr.
Defined.

(** X23 with the same kind of client. *)
Lemma analyze_outcome_witness :
  let r := @Analyze nat (Fixture.failing nat 9%nat) 0%nat Sample.options
             (Bytes ["a"%byte]) in
  err r = Some (ErrorString "HTTP 403: 403 Forbidden") /\ response r = None.
Proof.
  intros r.
  destruct (@analyze_outcome nat (Fixture.failing nat 9%nat) 0%nat Sample.options
              (Bytes ["a"%byte])) as (_ & Hiff & Hcall).
  destruct (Hcall _ eq_refl) as [Herr _].
  split; [exact Herr |]. apply Hiff. intros Hnone.
  rewrite Hnone in Herr. discriminate Herr.
Defined.

Example pipe_name_is_not_escaped :
  @CallEndpoint nat bool Fixture.pipes 0%nat Sample.options "top pages.json"
    [("limit", "10")] true
  = {| query_err := None; caller_result := true;
       gets := [("https://api.tinybird.co/v0/pipes/top pages.json", [("limit", "10")])] |}.
Proof. reflexivity. Qed.

(** X27 on options that set the token and the API version only. *)
Lemma default_host_repeats_the_scheme_witness :
  baseUrl (@NewClientOptions Fixture.env [Opt.Token "t"; Opt.ApiVersion "v1"]) "events"
  = "https://https://api.tinybird.co/v1/events".
Proof.
  apply (@default_host_repeats_the_scheme Fixture.env
           [Opt.Token "t"; Opt.ApiVersion "v1"] "events").
  reflexivity.
Defined.

Example retries_cannot_be_disabled :
  MaxRetries (@NewClientOptions Fixture.env [Opt.MaxRetries 0; Opt.Token "t"]) = 3
  /\ Token (@NewClientOptions Fixture.env [Opt.Token "t"; Opt.Token ""]) = "from-env".
Proof. split; reflexivity. Qed.

End TinybirdMore.

(* ================================================================== *)
(** * The default client *)

Module ClientProps.
Import Go Httpclient.

Section Default.
Context {T : Type} `{Transport} `{Decoder T} `{Tinybird.Env}.

(** X28. The client [NewClient] makes from the default options, on a
    network where every call fails: four attempts with the same request,
    separated by suspensions of 2 s, 4 s and 6 s, whatever the
    environment holds. *)
Theorem default_client_on_dead_network (x : executor) (method urlStr : string)
    (bodyBytes : bytes) (k : nat) (result : option T) :
  request_error method urlStr = None ->
  (forall i q, exists e, Do i q = inl e) ->
  match Tinybird.httpClient
          (@Tinybird.NewClient unit (Tinybird.NewClientOptions []) None) with
  | inl _ => False
  | inr c =>
      let q := requestOf c x method urlStr bodyBytes in
      events (execute c x method urlStr bodyBytes k result)
      = [EvDo q; EvSleep (2 * Tinybird.Second); EvDo q; EvSleep (4 * Tinybird.Second);
         EvDo q; EvSleep (6 * Tinybird.Second); EvDo q]
  end.
Proof.
  intros Hb Hdown. cbn [Tinybird.httpClient Tinybird.NewClient].
  set (c := Tinybird.clientConfig (Tinybird.NewClientOptions [])).
  set (q := requestOf c x method urlStr bodyBytes).
  rewrite ExecutorProps.execute_retry.
  change (Z.to_nat (MaxRetries c + 1)) with 4%nat.
  destruct (Hdown k q) as [e0 Hd0], (Hdown (S k) q) as [e1 Hd1],
    (Hdown (S (S k)) q) as [e2 Hd2], (Hdown (S (S (S k))) q) as [e3 Hd3].
  rewrite (ExecutorProps.loop_transport_error c x method urlStr bodyBytes Hb _ _ _ _ _ _ Hd0).
  rewrite (ExecutorProps.loop_transport_error c x method urlStr bodyBytes Hb _ _ _ _ _ _ Hd1).
  rewrite (ExecutorProps.loop_transport_error c x method urlStr bodyBytes Hb _ _ _ _ _ _ Hd2).
  rewrite (ExecutorProps.loop_transport_error c x method urlStr bodyBytes Hb _ _ _ _ _ _ Hd3).
  reflexivity.
Qed.

End Default.

(** X28 on a scripted network that is down. *)
Lemma default_client_on_dead_network_witness :
  let c := Tinybird.clientConfig (@Tinybird.NewClientOptions Fixture.env []) in
  let q := requestOf c Structured "GET" "https://https://api.tinybird.co/v0/pipes/top" [] in
  events (@execute bytes (Sample.scripted []) Sample.braces c Structured
            "GET" "https://https://api.tinybird.co/v0/pipes/top" [] 0 None)
  = [EvDo q; EvSleep (2 * Tinybird.Second); EvDo q; EvSleep (4 * Tinybird.Second);
     EvDo q; EvSleep (6 * Tinybird.Second); EvDo q].
Proof.
  apply (@default_client_on_dead_network bytes (Sample.scripted []) Sample.braces
           Fixture.env Structured "GET" "https://https://api.tinybird.co/v0/pipes/top"
           [] 0%nat None).
  - reflexivity.
  - intros [| i] q; eexists; reflexivity.
Defined.

End ClientProps.
